(** * The chat backend of main.py: store, history assembly and the two handlers

    A shallow embedding of [src/main.py].  The program is a Flask service
    with two routes.  It keeps two day-partitioned documents per user in
    Firestore, asks a completion service for a reply and returns JSON.

    What is outside the program is an input of the model:
    - the IST clock ([datetime.now]), read once per [get_ist_time] call;
    - [uuid.uuid4], read once per call;
    - [auth.verify_id_token] and [openai.ChatCompletion.create], which
      either return or raise.
    Firestore is modelled by its documented behaviour: a store of
    documents addressed by path, [get] with [exists], and [set] with
    [merge=True] and the [ArrayUnion] transform. *)

From stdpp Require Import base option list gmap strings fin_maps.

Open Scope string_scope.
Open Scope list_scope.

(** ** Python values that the program handles

    Every value the handlers move between the request, the store and the
    response is a Python [str]; a missing dictionary key and an absent
    header are [None].  [option string] is "str or None". *)

(** Python truthiness of a "str or None" value: [None] and [''] are false. *)
Definition truthy (v : option string) : bool :=
  match v with
  | None => false
  | Some "" => false
  | Some _ => true
  end.

(** ** Exceptions and results *)

Inductive exn : Type :=
  | KeyError (key : string)      (* d[key] on a dict without key *)
  | TypeError                    (* indexing a str by a key *)
  | AttributeError               (* calling get on a str *)
  | UpstreamError.               (* the completion service raised *)

Inductive result (A : Type) : Type :=
  | Ok (a : A)
  | Raise (e : exn).
Arguments Ok {A} a.
Arguments Raise {A} e.

(** [d[key]] on a Python dict. *)
Definition subscript {V} (d : gmap string V) (key : string) : result V :=
  match d !! key with
  | Some v => Ok v
  | None => Raise (KeyError key)
  end.

(** ** Stored data

    A stored entry is a Firestore map from field names to strings.  A
    document is a map from field names to fields; a field is a string
    (["date"]) or an array of entries (["user_messages"], ["chats"]). *)

Abbreviation entry := (gmap string string).

Inductive field : Type :=
  | FStr (s : string)
  | FArr (l : list entry).

Abbreviation document := (gmap string field).

(** A document path [users/{uid}/{collection}/{date}]. *)
Abbreviation path := (string * string * string)%type.

Abbreviation store := (gmap path document).

Definition doc_ref (uid collection date_str : string) : path :=
  (uid, collection, date_str).

(** [ArrayUnion(elems)] applied to the current value of a field: every
    given element that the array does not hold yet is added at the end;
    a field that is absent or not an array counts as the empty array. *)
Definition union_one (arr : list entry) (e : entry) : list entry :=
  if decide (e ∈ arr) then arr else arr ++ [e].

Definition ArrayUnion (elems : list entry) (current : option field) : field :=
  FArr (fold_left union_one elems
          match current with
          | Some (FArr arr) => arr
          | _ => []
          end).

(** [ref.set({"date": date_str, array_field: ArrayUnion(elems)}, merge=True)]:
    the document is created when absent, the two named fields are written
    and every other field is kept. *)
Definition set_merge (ref : path) (date_str array_field : string)
    (elems : list entry) (db : store) : store :=
  let old : document := default ∅ (db !! ref) in
  <[ref := <[array_field := ArrayUnion elems (old !! array_field)]>
             (<["date" := FStr date_str]> old)]> db.

(** ** The outside world *)

(** One reading of the IST clock, kept as the two renderings the program
    takes of it: [strftime('%Y-%m-%d')] and [isoformat()]. *)
Record datetime : Type := { ymd : string; isoformat : string }.

(** A role-tagged message of the model context. *)
Record message : Type := { role : string; content : string }.

Record env : Type := {
  clock : nat -> datetime;                      (* n-th datetime.now(IST) *)
  uuid4 : nat -> string;                        (* n-th str(uuid.uuid4()) *)
  verify_id_token : string -> option string;    (* decoded_token['uid'], None when it raises *)
  ChatCompletion_create : list message -> result string
}.

Record world : Type := {
  db : store;
  ticks : nat;      (* clock readings taken so far *)
  draws : nat       (* identifiers drawn so far *)
}.

(** ** The monad of the handlers: state and exceptions

    A raised exception keeps the state reached so far: nothing in the
    program rolls a write back. *)

Definition M (A : Type) : Type := world -> result A * world.

Definition ret {A} (a : A) : M A := fun w => (Ok a, w).

Definition bind {A B} (m : M A) (k : A -> M B) : M B :=
  fun w => match m w with
           | (Ok a, w') => k a w'
           | (Raise e, w') => (Raise e, w')
           end.

Definition lift {A} (r : result A) : M A := fun w => (r, w).

Declare Scope m_scope.
Delimit Scope m_scope with m.
Notation "x <- m ;; k" := (bind m (fun x => k))
  (at level 100, m at next level, right associativity) : m_scope.
Notation "m ;;; k" := (bind m (fun _ => k))
  (at level 100, right associativity) : m_scope.
Open Scope m_scope.

Definition update_db (f : store -> store) : M unit :=
  fun w => (Ok tt, {| db := f (db w); ticks := ticks w; draws := draws w |}).

(** ** Requests and responses

    Header names are the keys as the source spells them.  The body is a
    JSON object with string values, as the API defines it; a key that is
    absent and a key that is null both read as [None] through [get]. *)

Record request : Type := {
  headers : gmap string string;
  json : gmap string string;     (* the JSON object of the body *)
  args : gmap string string      (* the query parameters *)
}.

(** A display item of the history response. *)
Record item : Type := { sender : string; text : string }.

Inductive body : Type :=
  | JError (error : string)                  (* {"error": error} *)
  | JChat (response session_id : string)     (* {"response": .., "session_id": ..} *)
  | JHistory (history : list item).          (* {"history": [..]} *)

Record http_response : Type := { payload : body; status : nat }.

Definition jsonify (b : body) (code : nat) : http_response :=
  {| payload := b; status := code |}.

(** ** Pure helpers of the Python runtime *)

Definition rbind {A B} (r : result A) (k : A -> result B) : result B :=
  match r with
  | Ok a => k a
  | Raise e => Raise e
  end.

Notation "x <~ r ;; k" := (rbind r (fun x => k))
  (at level 100, r at next level, right associativity) : m_scope.

(** [s.split(sep)] for a non-empty [sep]: the pieces of [s] between the
    occurrences of [sep], scanned from the left.  [skip] counts the
    characters of a separator still to pass over and [piece] is the piece
    being read. *)
Fixpoint split_from (sep : string) (skip : nat) (piece s : string) : list string :=
  match s with
  | "" => [piece]
  | String c s' =>
      match skip with
      | S skip' => split_from sep skip' piece s'
      | O =>
          if String.prefix sep s
          then piece :: split_from sep (String.length sep - 1) "" s'
          else split_from sep 0 (String.append piece (String c "")) s'
      end
  end.

Definition split (sep s : string) : list string := split_from sep 0 "" s.

(** [auth_header.split('Bearer ')[1]]; the header starts with the
    separator when this is evaluated, so the list has a second piece. *)
Definition bearer_token (auth_header : string) : string :=
  nth 1 (split "Bearer " auth_header) "".

(** [a or b] on a "str or None" value; [b] runs only when [a] is false. *)
Definition py_or (a : option string) (b : M string) : M string :=
  match a with
  | Some s => if truthy a then ret s else b
  | None => b
  end.

(** The system prompt, as the triple-quoted literal of the source reads. *)
Definition system_prompt : string := "
तुम्ही 'मनोदर्पण' मानसिक आरोग्य सहाय्यक आहात. तुमचा उद्देश वापरकर्त्यांची मानसिक स्थिती समजून त्यांना आधार देणे आहे. तुमचे उत्तर नेहमी मराठीत असले पाहिजे.

You are a friendly, compassionate mental health assistant designed to support users after they complete tests for depression and anxiety. Your primary tasks are to monitor their emotional well-being, provide thoughtful feedback, and offer helpful suggestions when needed.

Your Responsibilities:
1️ Daily Check-ins
2️ Emotional Analysis
3️ Providing Support
4️ Encouraging Positive Habits
5️ Recognizing Urgent Situations

Also give all the responses in Marathi language.
".

Section Service.

Variable E : env.

Definition get_ist_time : M datetime :=
  fun w => (Ok (clock E (ticks w)),
            {| db := db w; ticks := S (ticks w); draws := draws w |}).

Definition get_date_str : M string :=
  t <- get_ist_time ;; ret (ymd t).

Definition str_uuid4 : M string :=
  fun w => (Ok (uuid4 E (draws w)),
            {| db := db w; ticks := ticks w; draws := S (draws w) |}).

Definition get_response (conversation : list message) : M string :=
  lift (ChatCompletion_create E conversation).

Definition save_user_session (uid session_id user_message : string) : M unit :=
  date_str <- get_date_str ;;
  let user_session_ref := doc_ref uid "user_sessions" date_str in
  now <- get_ist_time ;;
  update_db (set_merge user_session_ref date_str "user_messages"
    [ {[ "session_id" := session_id;
         "user_message" := user_message;
         "timestamp" := isoformat now ]} ]).

Definition save_chat_history (uid session_id user_message bot_message : string) : M unit :=
  date_str <- get_date_str ;;
  let chat_history_ref := doc_ref uid "chat_history" date_str in
  now <- get_ist_time ;;
  update_db (set_merge chat_history_ref date_str "chats"
    [ {[ "session_id" := session_id;
         "user_message" := user_message;
         "bot_message" := bot_message;
         "timestamp" := isoformat now ]} ]).

(** [chat_history_ref.get()]: [None] when the snapshot has [exists] false. *)
Definition doc_get (ref : path) : M (option document) :=
  fun w => (Ok (db w !! ref), w).

(** The body of the [for chat in chats] loop of [get_session_history],
    run over the list; [history] is the list built so far. *)
Fixpoint session_loop (session_id : string) (chats : list entry)
    (history : list message) : result (list message) :=
  match chats with
  | [] => Ok history
  | chat :: chats' =>
      sid <~ subscript chat "session_id" ;;
      if decide (sid = session_id) then
        user_message <~ subscript chat "user_message" ;;
        let history := history ++ [ {| role := "user"; content := user_message |} ] in
        bot_message <~ subscript chat "bot_message" ;;
        let history := history ++ [ {| role := "assistant"; content := bot_message |} ] in
        session_loop session_id chats' history
      else session_loop session_id chats' history
  end.

Definition get_session_history (uid session_id : string) : M (list message) :=
  date_str <- get_date_str ;;
  let chat_history_ref := doc_ref uid "chat_history" date_str in
  chat_doc <- doc_get chat_history_ref ;;
  let history := [ {| role := "system"; content := system_prompt |} ] in
  match chat_doc with
  | Some d =>
      match default (FArr []) (d !! "chats") with
      | FArr chats => lift (session_loop session_id chats history)
      | FStr "" => ret history                 (* nothing to iterate *)
      | FStr _ => lift (Raise TypeError)       (* a character has no keys *)
      end
  | None => ret history
  end.

Definition verify_token (req : request) : option string :=
  let test_uid := headers req !! "X-UID" in
  if truthy test_uid then test_uid else
  let auth_header := headers req !! "Authorization" in
  match auth_header with
  | None => None
  | Some h =>
      if negb (truthy auth_header) || negb (String.prefix "Bearer " h) then None
      else
        let id_token := bearer_token h in
        verify_id_token E id_token
  end.

Definition chat (req : request) : M http_response :=
  match verify_token req with
  | None | Some "" => ret (jsonify (JError "Unauthorized") 401)
  | Some uid =>
      let data := json req in
      session_id <- py_or (data !! "session_id") str_uuid4 ;;
      match data !! "message" with
      | None | Some "" => ret (jsonify (JError "Message is required") 400)
      | Some user_message =>
          save_user_session uid session_id user_message ;;;
          conversation <- get_session_history uid session_id ;;
          let conversation :=
            conversation ++ [ {| role := "user"; content := user_message |} ] in
          bot_response <- get_response conversation ;;
          save_chat_history uid session_id user_message bot_response ;;;
          ret (jsonify (JChat bot_response session_id) 200)
      end
  end.

(** One element of the list comprehension of [get_chat_history]. *)
Definition display_item (chat : entry) : result item :=
  if truthy (chat !! "user_message")
  then t <~ subscript chat "user_message" ;; Ok {| sender := "user"; text := t |}
  else t <~ subscript chat "bot_message" ;; Ok {| sender := "bot"; text := t |}.

Fixpoint comprehension (chats : list entry) : result (list item) :=
  match chats with
  | [] => Ok []
  | chat :: chats' =>
      i <~ display_item chat ;;
      rest <~ comprehension chats' ;;
      Ok (i :: rest)
  end.

Definition get_chat_history (req : request) : M http_response :=
  match verify_token req with
  | None | Some "" => ret (jsonify (JError "Unauthorized") 401)
  | Some uid =>
      date_str <- py_or (args req !! "date") get_date_str ;;
      let chat_history_ref := doc_ref uid "chat_history" date_str in
      chat_doc <- doc_get chat_history_ref ;;
      history <-
        match chat_doc with
        | Some d =>
            match default (FArr []) (d !! "chats") with
            | FArr chats => lift (comprehension chats)
            | FStr "" => ret []
            | FStr _ => lift (Raise AttributeError)   (* a character has no get *)
            end
        | None => ret []
        end ;;
      ret (jsonify (JHistory history) 200)
  end.

End Service.

(** ** Observations used in the statements *)

(** The two daily logs of a user. *)
Inductive log_kind : Type :=
  | DailyUserMessageLog
  | DailyChatHistory.

#[global] Instance log_kind_eq_dec : EqDecision log_kind.
Proof. solve_decision. Defined.

Definition collection_of (k : log_kind) : string :=
  match k with
  | DailyUserMessageLog => "user_sessions"
  | DailyChatHistory => "chat_history"
  end.

Definition array_of (k : log_kind) : string :=
  match k with
  | DailyUserMessageLog => "user_messages"
  | DailyChatHistory => "chats"
  end.

(** The entry sequence a document holds in an array field; empty when the
    document or the field is absent. *)
Definition stored_array (s : store) (ref : path) (array_field : string) : list entry :=
  match s !! ref with
  | Some d => match d !! array_field with
              | Some (FArr l) => l
              | _ => []
              end
  | None => []
  end.

Definition log_of (s : store) (k : log_kind) (uid date_str : string) : list entry :=
  stored_array s (doc_ref uid (collection_of k) date_str) (array_of k).

(** The calendar day the next clock reading falls on. *)
Definition today (E : env) (w : world) : string := ymd (clock E (ticks w)).

(** The date [get_chat_history] reads: the [date] parameter when it is a
    non-empty string, the current day otherwise. *)
Definition target_date (E : env) (req : request) (w : world) : string :=
  match args req !! "date" with
  | Some (String c s) => String c s
  | _ => today E w
  end.

(** What [get_chat_history] answers from the snapshot of a document. *)
Definition history_of_snapshot (chat_doc : option document) : result http_response :=
  match chat_doc with
  | Some d =>
      match default (FArr []) (d !! "chats") with
      | FArr chats => h <~ comprehension chats ;; Ok (jsonify (JHistory h) 200)
      | FStr "" => Ok (jsonify (JHistory []) 200)
      | FStr _ => Raise AttributeError
      end
  | None => Ok (jsonify (JHistory []) 200)
  end.

(** The projection the specification asks of [get_chat_history]: two
    items per stored entry, the user item and then the bot item. *)
Definition two_items (chat : entry) : list item :=
  [ {| sender := "user"; text := default "" (chat !! "user_message") |};
    {| sender := "bot"; text := default "" (chat !! "bot_message") |} ].

Definition projection_of_spec (chats : list entry) : list item :=
  flat_map two_items chats.


Definition tick (w : world) : world :=
  {| db := db w; ticks := S (ticks w); draws := draws w |}.

Definition draw (w : world) : world :=
  {| db := db w; ticks := ticks w; draws := S (draws w) |}.

(** The session identifier [chat] works with: the one of the body when it
    is a non-empty string, the next draw of the generator otherwise. *)
Definition resolve_session_id (E : env) (req : request) (w : world) : string :=
  match json req !! "session_id" with
  | Some (String c s) => String c s
  | _ => uuid4 E (draws w)
  end.

(** The entry [save_user_session] hands to [ArrayUnion]. *)
Definition user_entry (session_id user_message timestamp : string) : entry :=
  {[ "session_id" := session_id;
     "user_message" := user_message;
     "timestamp" := timestamp ]}.

(** The entry [save_chat_history] hands to [ArrayUnion]. *)
Definition turn_entry (session_id user_message bot_message timestamp : string) : entry :=
  {[ "session_id" := session_id;
     "user_message" := user_message;
     "bot_message" := bot_message;
     "timestamp" := timestamp ]}.

(** A stored chat entry that carries the three fields the readers index. *)
Definition complete (chat : entry) : Prop :=
  is_Some (chat !! "session_id") ∧ is_Some (chat !! "user_message")
  ∧ is_Some (chat !! "bot_message").

Definition system_entry : message :=
  {| role := "system"; content := system_prompt |}.

(** The two context messages of one stored turn. *)
Definition turn_messages (chat : entry) : list message :=
  [ {| role := "user"; content := default "" (chat !! "user_message") |};
    {| role := "assistant"; content := default "" (chat !! "bot_message") |} ].

Definition in_session (session_id : string) (chat : entry) : Prop :=
  chat !! "session_id" = Some session_id.

#[local] Instance in_session_dec session_id chat : Decision (in_session session_id chat).
Proof. unfold in_session. apply _. Defined.

(** The two store writes as operations on a day's document. *)
Inductive write_op : Type :=
  | appendUserMessage (uid session_id user_message : string)
  | appendChatTurn (uid session_id user_message bot_message : string).

Definition run_op (E : env) (op : write_op) : M unit :=
  match op with
  | appendUserMessage uid session_id user_message =>
      save_user_session E uid session_id user_message
  | appendChatTurn uid session_id user_message bot_message =>
      save_chat_history E uid session_id user_message bot_message
  end.

Fixpoint run_ops (E : env) (ops : list write_op) : M unit :=
  match ops with
  | [] => ret tt
  | op :: ops' => run_op E op ;;; run_ops E ops'
  end.

Definition kind_of (op : write_op) : log_kind :=
  match op with
  | appendUserMessage _ _ _ => DailyUserMessageLog
  | appendChatTurn _ _ _ _ => DailyChatHistory
  end.

Definition uid_of (op : write_op) : string :=
  match op with
  | appendUserMessage uid _ _ => uid
  | appendChatTurn uid _ _ _ => uid
  end.

(** The entry an operation writes when it starts in world [w]: the date
    is the first clock reading, the timestamp the second. *)
Definition new_entry (E : env) (op : write_op) (w : world) : entry :=
  let timestamp := isoformat (clock E (S (ticks w))) in
  match op with
  | appendUserMessage _ session_id user_message =>
      user_entry session_id user_message timestamp
  | appendChatTurn _ session_id user_message bot_message =>
      turn_entry session_id user_message bot_message timestamp
  end.

(** ** Sample data

    A small deployment used to run the handlers on concrete requests. *)

Module Sample.

(** The clock advances by one second per reading, within one day. *)
Definition second_of (n : nat) : string :=
  match n with
  | 0 => "00" | 1 => "01" | 2 => "02" | 3 => "03" | 4 => "04"
  | 5 => "05" | 6 => "06" | 7 => "07" | 8 => "08" | _ => "09"
  end.

Definition running_clock (n : nat) : datetime :=
  {| ymd := "2024-05-02";
     isoformat := String.append "2024-05-02T10:15:" (String.append (second_of n) "+05:30") |}.

(** Two readings in a row can be equal: the clock has a resolution. *)
Definition coarse_clock (n : nat) : datetime :=
  {| ymd := "2024-05-02"; isoformat := "2024-05-02T10:15:00.015000+05:30" |}.

Definition echo (conversation : list message) : result string :=
  Ok (String.append "re: " (content (List.last conversation system_entry))).

Definition service : env :=
  {| clock := running_clock;
     uuid4 := fun _ => "3f2b8c1e-9d47-4a6b-8e15-7c0d2a91b654";
     verify_id_token := fun t => if decide (t = "tok-alice") then Some "alice" else None;
     ChatCompletion_create := echo |}.

Definition coarse_service : env :=
  {| clock := coarse_clock;
     uuid4 := uuid4 service;
     verify_id_token := verify_id_token service;
     ChatCompletion_create := echo |}.

(** The completion service is down. *)
Definition failing_service : env :=
  {| clock := running_clock;
     uuid4 := uuid4 service;
     verify_id_token := verify_id_token service;
     ChatCompletion_create := fun _ => Raise UpstreamError |}.

Definition chats_today : list entry :=
  [ turn_entry "s1" "hi" "hello" "2024-05-02T09:00:00+05:30";
    turn_entry "s2" "news?" "none" "2024-05-02T09:01:00+05:30";
    turn_entry "s1" "bye" "take care" "2024-05-02T09:02:00+05:30" ].

Definition chats_yesterday : list entry :=
  [ turn_entry "s1" "old" "older" "2024-05-01T09:00:00+05:30" ].

Definition day_doc (date_str : string) (chats : list entry) : document :=
  {[ "date" := FStr date_str; "chats" := FArr chats ]}.

(** A document that exists but has no chats field. *)
Definition bare_doc (date_str : string) : document :=
  {[ "date" := FStr date_str ]}.

Definition empty_world : world := {| db := ∅; ticks := 0; draws := 0 |}.

Definition world_of (s : store) : world := {| db := s; ticks := 0; draws := 0 |}.

Definition store_today : store :=
  {[ doc_ref "bob" "chat_history" "2024-05-02" := day_doc "2024-05-02" chats_today ]}.

Definition store_two_days : store :=
  <[ doc_ref "bob" "chat_history" "2024-05-01" := day_doc "2024-05-01" chats_yesterday ]>
    store_today.

Definition store_one_turn : store :=
  {[ doc_ref "bob" "chat_history" "2024-05-02" :=
       day_doc "2024-05-02" [ turn_entry "s1" "hi" "hello" "2024-05-02T09:00:00+05:30" ] ]}.

Definition store_bare : store :=
  {[ doc_ref "bob" "chat_history" "2024-05-02" := bare_doc "2024-05-02" ]}.

Definition mk_request (h j a : list (string * string)) : request :=
  {| headers := list_to_map h; json := list_to_map j; args := list_to_map a |}.

End Sample.

(** ** Serving requests one after the other *)

Inductive call : Type :=
  | POST_chat (req : request)
  | GET_get_chat_history (req : request).

Definition handle (E : env) (c : call) : M http_response :=
  match c with
  | POST_chat req => chat E req
  | GET_get_chat_history req => get_chat_history E req
  end.

(** The world after a sequence of requests.  A request that ends with an
    uncaught exception is answered as a server error and the next request
    starts from the state it left. *)
Fixpoint serve (E : env) (calls : list call) (w : world) : world :=
  match calls with
  | [] => w
  | c :: calls' => serve E calls' (snd (handle E c w))
  end.



(** The chat-history document of a day can be read by the assembly loop:
    it is absent, or has no chats field, or an array of complete entries. *)
Definition day_readable (s : store) (uid date_str : string) : Prop :=
  match s !! doc_ref uid "chat_history" date_str with
  | None => True
  | Some d =>
      match d !! "chats" with
      | None => True
      | Some (FArr chats) => Forall complete chats
      | Some (FStr _) => False
      end
  end.

(** The context assembled for a session from a day's entry sequence. *)
Definition assembled (session_id : string) (chats : list entry) : list message :=
  system_entry :: flat_map turn_messages (filter (in_session session_id) chats).

(** The item the comprehension of [get_chat_history] builds for an entry
    that it can render. *)
Definition rendered (chat : entry) : item :=
  if truthy (chat !! "user_message")
  then {| sender := "user"; text := default "" (chat !! "user_message") |}
  else {| sender := "bot"; text := default "" (chat !! "bot_message") |}.

Definition renderable (chat : entry) : Prop :=
  truthy (chat !! "user_message") = true ∨ is_Some (chat !! "bot_message").

Definition user_message_of (msg : string) : message :=
  {| role := "user"; content := msg |}.

Definition assistant_message_of (msg : string) : message :=
  {| role := "assistant"; content := msg |}.

(** [sep] starts at no position of [s]. *)
Fixpoint free_of (sep s : string) : bool :=
  match s with
  | "" => true
  | String c s' => negb (String.prefix sep s) && free_of sep s'
  end.

Module Scenario.

(** A day whose second stored entry has lost its session_id. *)
Definition chats_broken : list entry :=
  [ turn_entry "s1" "hi" "hello" "2024-05-02T09:00:00+05:30";
    {[ "user_message" := "lost"; "bot_message" := "found" ]};
    turn_entry "s1" "bye" "take care" "2024-05-02T09:02:00+05:30" ].

Definition store_broken : store :=
  {[ doc_ref "bob" "chat_history" "2024-05-02" :=
       Sample.day_doc "2024-05-02" chats_broken ]}.

(** A day with an entry that has no user message. *)
Definition chats_bot_only : list entry :=
  [ turn_entry "s1" "hi" "hello" "2024-05-02T09:00:00+05:30";
    {[ "session_id" := "s1"; "bot_message" := "are you there?" ]} ].

Definition store_bot_only : store :=
  {[ doc_ref "bob" "chat_history" "2024-05-02" :=
       Sample.day_doc "2024-05-02" chats_bot_only ]}.

(** A day with an entry that has neither message. *)
Definition chats_blank : list entry :=
  [ turn_entry "s1" "hi" "hello" "2024-05-02T09:00:00+05:30";
    {[ "session_id" := "s1" ]} ].

Definition store_blank : store :=
  {[ doc_ref "bob" "chat_history" "2024-05-02" :=
       Sample.day_doc "2024-05-02" chats_blank ]}.

(** The clock passes midnight between the second and the third reading. *)
Definition midnight_clock (n : nat) : datetime :=
  match n with
  | 0 => {| ymd := "2024-05-02"; isoformat := "2024-05-02T23:59:58+05:30" |}
  | 1 => {| ymd := "2024-05-02"; isoformat := "2024-05-02T23:59:59+05:30" |}
  | _ => {| ymd := "2024-05-03"; isoformat := "2024-05-03T00:00:01+05:30" |}
  end.

Definition midnight_service : env :=
  {| clock := midnight_clock;
     uuid4 := uuid4 Sample.service;
     verify_id_token := verify_id_token Sample.service;
     ChatCompletion_create := Sample.echo |}.

Definition chat_request (session_id msg : string) : request :=
  Sample.mk_request [("X-UID", "bob")] [("message", msg); ("session_id", session_id)] [].

Definition history_request : request :=
  Sample.mk_request [("X-UID", "bob")] [] [].

End Scenario.

(** ** History assembly *)

Lemma session_loop_complete session_id chats history :
  Forall complete chats →
  session_loop session_id chats history
  = Ok (history ++ flat_map turn_messages (filter (in_session session_id) chats)).
Proof.
  intros Hall. revert history.
  induction Hall as [|chat chats (sid & um & bm) _ IH]; intros history; simpl.
  - by rewrite app_nil_r.
  - destruct sid as [sid Hsid], um as [um Hum], bm as [bm Hbm].
    unfold subscript at 1. rewrite Hsid. simpl.
    destruct (decide (sid = session_id)) as [->|Hne].
    + unfold subscript. rewrite Hum, Hbm. simpl. rewrite IH.
      rewrite filter_cons_True by exact Hsid. simpl.
      unfold turn_messages at 2. rewrite Hum, Hbm. simpl.
      by rewrite <- !app_assoc.
    + rewrite IH. rewrite filter_cons_False; [done|].
      unfold in_session. congruence.
Qed.

(** C2.  For every uid, session_id and stored list of the day, history
    assembly returns the fixed system entry followed by, for each stored
    entry of that session and in stored order, its user message with role
    user and then its bot message with role assistant; entries of other
    sessions contribute nothing.  The store is left as it was. *)
Theorem get_session_history_assembles (E : env) (uid session_id : string)
    (w : world) (d : document) (chats : list entry) :
  db w !! doc_ref uid "chat_history" (today E w) = Some d →
  d !! "chats" = Some (FArr chats) →
  Forall complete chats →
  get_session_history E uid session_id w
  = (Ok (system_entry :: flat_map turn_messages (filter (in_session session_id) chats)),
     tick w).
Proof.
  intros Hd Hc Hall.
  unfold get_session_history, get_date_str, bind, get_ist_time, ret, doc_get, lift.
  simpl. unfold today in Hd. rewrite Hd, Hc. simpl.
  by rewrite (session_loop_complete _ _ _ Hall).
Qed.

Lemma get_session_history_assembles_witness :
  get_session_history Sample.service "bob" "s1" (Sample.world_of Sample.store_today)
  = (Ok [ system_entry;
          {| role := "user"; content := "hi" |};
          {| role := "assistant"; content := "hello" |};
          {| role := "user"; content := "bye" |};
          {| role := "assistant"; content := "take care" |} ],
     tick (Sample.world_of Sample.store_today)).
Proof.
  apply (get_session_history_assembles Sample.service "bob" "s1"
           (Sample.world_of Sample.store_today)
           (Sample.day_doc "2024-05-02" Sample.chats_today) Sample.chats_today).
  - vm_compute. reflexivity.
  - vm_compute. reflexivity.
  - repeat constructor; eexists; vm_compute; reflexivity.
Defined.

(** The result of history assembly is a function of the clock reading and
    of the one document of the current day. *)
Lemma get_session_history_reads (E : env) (uid session_id : string) (w : world) :
  get_session_history E uid session_id w
  = (match db w !! doc_ref uid "chat_history" (today E w) with
     | Some d =>
         match default (FArr []) (d !! "chats") with
         | FArr chats => session_loop session_id chats [system_entry]
         | FStr "" => Ok [system_entry]
         | FStr _ => Raise TypeError
         end
     | None => Ok [system_entry]
     end, tick w).
Proof.
  unfold get_session_history, get_date_str, bind, get_ist_time, ret, doc_get, lift, today.
  simpl. destruct (db w !! _) as [d|]; [|done].
  destruct (default _ _) as [[|c s]|chats]; done.
Qed.

(** C6.  History assembly reads only the chat-history document of the
    current calendar day: two stores that agree on that one document give
    the same assembled context under the same clock, whatever they hold
    under any other date. *)
Theorem get_session_history_today_only (E : env) (uid session_id : string)
    (w w' : world) :
  ticks w' = ticks w →
  db w' !! doc_ref uid "chat_history" (today E w)
  = db w !! doc_ref uid "chat_history" (today E w) →
  fst (get_session_history E uid session_id w')
  = fst (get_session_history E uid session_id w).
Proof.
  intros Ht Hd. rewrite !get_session_history_reads. simpl.
  unfold today in *. rewrite Ht, Hd. done.
Qed.

Lemma get_session_history_today_only_witness :
  fst (get_session_history Sample.service "bob" "s1" (Sample.world_of Sample.store_two_days))
  = fst (get_session_history Sample.service "bob" "s1" (Sample.world_of Sample.store_today)).
Proof.
  apply (get_session_history_today_only Sample.service "bob" "s1"
           (Sample.world_of Sample.store_today) (Sample.world_of Sample.store_two_days)).
  - reflexivity.
  - vm_compute. reflexivity.
Defined.

(** ** Fetching a day's history *)

Lemma get_chat_history_reads (E : env) (req : request) (uid : string) (w : world) :
  verify_token E req = Some uid → uid ≠ "" →
  fst (get_chat_history E req w)
  = history_of_snapshot (db w !! doc_ref uid "chat_history" (target_date E req w))
  ∧ db (snd (get_chat_history E req w)) = db w.
Proof.
  intros Hv Hne. unfold get_chat_history. rewrite Hv.
  destruct uid as [|a uid]; [done|]. clear Hv Hne.
  unfold target_date, py_or, bind, get_date_str, get_ist_time, ret, doc_get, lift, today.
  destruct (args req !! "date") as [[|c s]|]; simpl;
    (destruct (db w !! _) as [d|]; simpl; [|done]);
    (destruct (default _ _) as [[|c' s']|chats]; simpl; [done|done|]);
    destruct (comprehension chats); done.
Qed.

(** C10.  A chat-history document that exists without a chats field is
    read as an empty entry sequence by both readers: history assembly
    returns the single system entry, and an authenticated history request
    is answered 200 with an empty history; neither raises. *)
Theorem missing_chats_field_is_empty (E : env) :
  (∀ uid session_id w d,
     db w !! doc_ref uid "chat_history" (today E w) = Some d →
     d !! "chats" = None →
     fst (get_session_history E uid session_id w) = Ok [system_entry])
  ∧ (∀ req uid w d,
     verify_token E req = Some uid → uid ≠ "" →
     db w !! doc_ref uid "chat_history" (target_date E req w) = Some d →
     d !! "chats" = None →
     fst (get_chat_history E req w) = Ok (jsonify (JHistory []) 200)).
Proof.
  split.
  - intros uid session_id w d Hd Hc.
    rewrite get_session_history_reads. simpl. by rewrite Hd, Hc.
  - intros req uid w d Hv Hne Hd Hc.
    destruct (get_chat_history_reads E req uid w Hv Hne) as [-> _].
    by rewrite Hd; simpl; rewrite Hc.
Qed.

Lemma missing_chats_field_is_empty_witness :
  fst (get_session_history Sample.service "bob" "s1" (Sample.world_of Sample.store_bare))
  = Ok [system_entry]
  ∧ fst (get_chat_history Sample.service
           (Sample.mk_request [("X-UID", "bob")] [] [("date", "2024-05-02")])
           (Sample.world_of Sample.store_bare))
    = Ok (jsonify (JHistory []) 200).
Proof.
  destruct (missing_chats_field_is_empty Sample.service) as [Hs Hg]. split.
  - apply (Hs "bob" "s1" (Sample.world_of Sample.store_bare) (Sample.bare_doc "2024-05-02")).
    + vm_compute. reflexivity.
    + vm_compute. reflexivity.
  - apply (Hg _ "bob" (Sample.world_of Sample.store_bare) (Sample.bare_doc "2024-05-02")).
    + vm_compute. reflexivity.
    + discriminate.
    + vm_compute. reflexivity.
    + vm_compute. reflexivity.
Defined.

(** An entry with a non-empty user message yields the user item alone. *)
Lemma display_item_user (chat : entry) (c : Ascii.ascii) (s : string) :
  chat !! "user_message" = Some (String c s) →
  display_item chat = Ok {| sender := "user"; text := String c s |}.
Proof. intros H. unfold display_item, subscript. by rewrite H. Qed.

(** The comprehension yields one item per entry, never two. *)
Lemma comprehension_length (chats : list entry) (h : list item) :
  comprehension chats = Ok h → length h = length chats.
Proof.
  revert h. induction chats as [|chat chats IH]; intros h; simpl.
  - by intros [= <-].
  - destruct (display_item chat) as [i|]; simpl; [|done].
    destruct (comprehension chats) as [rest|]; simpl; [|done].
    intros [= <-]. simpl. by rewrite (IH rest).
Qed.

(** C1, where the code departs from the specification.  On a day whose
    stored document holds the single turn (hi, hello), the history request
    is answered 200 with the user item alone, while the projection of the
    specification has the user item and then the bot item. *)
Theorem get_chat_history_omits_bot_item :
  let req := Sample.mk_request [("X-UID", "bob")] [] [("date", "2024-05-02")] in
  let w := Sample.world_of Sample.store_one_turn in
  log_of (db w) DailyChatHistory "bob" "2024-05-02"
  = [ turn_entry "s1" "hi" "hello" "2024-05-02T09:00:00+05:30" ]
  ∧ fst (get_chat_history Sample.service req w)
    = Ok (jsonify (JHistory [ {| sender := "user"; text := "hi" |} ]) 200)
  ∧ projection_of_spec (log_of (db w) DailyChatHistory "bob" "2024-05-02")
    = [ {| sender := "user"; text := "hi" |}; {| sender := "bot"; text := "hello" |} ].
Proof. repeat split; vm_compute; reflexivity. Qed.




(** ** Identity resolution *)

Lemma verify_token_fails (E : env) (req : request) :
  headers req !! "X-UID" = None ∨ headers req !! "X-UID" = Some "" →
  headers req !! "Authorization" = None
  ∨ (∃ h, headers req !! "Authorization" = Some h ∧ String.prefix "Bearer " h = false)
  ∨ (∃ h, headers req !! "Authorization" = Some h
          ∧ verify_id_token E (bearer_token h) = None) →
  verify_token E req = None.
Proof.
  intros Hx Ha. unfold verify_token.
  assert (truthy (headers req !! "X-UID") = false) as ->
    by (destruct Hx as [-> | ->]; done).
  destruct Ha as [-> | [(h & -> & Hp) | (h & -> & Hv)]]; [done| |].
  - rewrite Hp. by rewrite orb_true_r.
  - by destruct (_ || _).
Qed.

Lemma chat_unauthorized (E : env) (req : request) (w : world) :
  verify_token E req = None ∨ verify_token E req = Some "" →
  chat E req w = (Ok (jsonify (JError "Unauthorized") 401), w).
Proof. unfold chat. intros [-> | ->]; done. Qed.

Lemma get_chat_history_unauthorized (E : env) (req : request) (w : world) :
  verify_token E req = None ∨ verify_token E req = Some "" →
  get_chat_history E req w = (Ok (jsonify (JError "Unauthorized") 401), w).
Proof. unfold get_chat_history. intros [-> | ->]; done. Qed.

(** C7.  When identity resolution fails (no non-empty X-UID header, and
    an Authorization header that is missing, does not start with the
    bearer prefix, or carries a token the identity service rejects), both
    handlers answer 401 and leave the world, hence every stored document,
    as it was. *)
Theorem unauthorized_is_401_without_mutation (E : env) (req : request) (w : world) :
  headers req !! "X-UID" = None ∨ headers req !! "X-UID" = Some "" →
  headers req !! "Authorization" = None
  ∨ (∃ h, headers req !! "Authorization" = Some h ∧ String.prefix "Bearer " h = false)
  ∨ (∃ h, headers req !! "Authorization" = Some h
          ∧ verify_id_token E (bearer_token h) = None) →
  chat E req w = (Ok (jsonify (JError "Unauthorized") 401), w)
  ∧ get_chat_history E req w = (Ok (jsonify (JError "Unauthorized") 401), w).
Proof.
  intros Hx Ha. pose proof (verify_token_fails E req Hx Ha) as Hv. split.
  - apply chat_unauthorized. by left.
  - apply get_chat_history_unauthorized. by left.
Qed.

Lemma unauthorized_is_401_without_mutation_witness :
  let req := Sample.mk_request [("Authorization", "Bearer tok-mallory")]
               [("message", "hi")] [] in
  let w := Sample.world_of Sample.store_today in
  chat Sample.service req w = (Ok (jsonify (JError "Unauthorized") 401), w)
  ∧ get_chat_history Sample.service req w = (Ok (jsonify (JError "Unauthorized") 401), w).
Proof.
  apply (unauthorized_is_401_without_mutation Sample.service
           (Sample.mk_request [("Authorization", "Bearer tok-mallory")] [("message", "hi")] [])
           (Sample.world_of Sample.store_today)).
  - left. vm_compute. reflexivity.
  - right. right. exists "Bearer tok-mallory". split; vm_compute; reflexivity.
Defined.

(** ** Submitting a turn *)

Lemma py_or_session_id (E : env) (req : request) (w : world) :
  py_or (json req !! "session_id") (str_uuid4 E) w
  = (Ok (resolve_session_id E req w),
     match json req !! "session_id" with
     | Some (String _ _) => w
     | _ => draw w
     end).
Proof.
  unfold py_or, resolve_session_id, str_uuid4, ret, draw.
  by destruct (json req !! "session_id") as [[|c s]|].
Qed.

(** C8.  An authenticated chat request whose body has no message, or an
    empty one, is answered 400 and no stored document changes. *)
Theorem missing_message_is_400_without_mutation (E : env) (req : request)
    (uid : string) (w : world) :
  verify_token E req = Some uid → uid ≠ "" →
  json req !! "message" = None ∨ json req !! "message" = Some "" →
  fst (chat E req w) = Ok (jsonify (JError "Message is required") 400)
  ∧ db (snd (chat E req w)) = db w.
Proof.
  intros Hv Hne Hm. unfold chat. rewrite Hv.
  destruct uid as [|a uid]; [done|].
  unfold bind. rewrite py_or_session_id.
  destruct Hm as [-> | ->]; unfold ret; simpl;
    by destruct (json req !! "session_id") as [[|c s]|].
Qed.

Lemma missing_message_is_400_without_mutation_witness :
  let req := Sample.mk_request [("X-UID", "bob")] [("message", "")] [] in
  let w := Sample.world_of Sample.store_today in
  fst (chat Sample.service req w) = Ok (jsonify (JError "Message is required") 400)
  ∧ db (snd (chat Sample.service req w)) = db w.
Proof.
  apply (missing_message_is_400_without_mutation Sample.service
           (Sample.mk_request [("X-UID", "bob")] [("message", "")] []) "bob"
           (Sample.world_of Sample.store_today)).
  - vm_compute. reflexivity.
  - discriminate.
  - right. vm_compute. reflexivity.
Defined.

(** ** The store writes *)

Lemma set_merge_other (ref ref' : path) (date_str array_field : string)
    (elems : list entry) (s : store) :
  ref' ≠ ref → set_merge ref date_str array_field elems s !! ref' = s !! ref'.
Proof. intros Hne. unfold set_merge. by rewrite lookup_insert_ne. Qed.

Lemma stored_array_set_merge (ref : path) (date_str array_field : string)
    (e : entry) (s : store) :
  array_field ≠ "date" →
  stored_array (set_merge ref date_str array_field [e] s) ref array_field
  = union_one (stored_array s ref array_field) e.
Proof.
  intros Hf. unfold stored_array, set_merge.
  rewrite lookup_insert_eq, lookup_insert_eq. unfold ArrayUnion. simpl.
  destruct (s !! ref) as [d|]; simpl.
  - by destruct (d !! array_field) as [[?|?]|].
  - by rewrite lookup_empty.
Qed.

Lemma stored_array_set_merge_other (ref ref' : path) (date_str f f' : string)
    (elems : list entry) (s : store) :
  f' ≠ "date" → (ref', f') ≠ (ref, f) →
  stored_array (set_merge ref date_str f elems s) ref' f' = stored_array s ref' f'.
Proof.
  intros Hd Hne. unfold stored_array.
  destruct (decide (ref' = ref)) as [->|Hr].
  - assert (f' ≠ f) as Hf by congruence.
    unfold set_merge. rewrite lookup_insert_eq.
    rewrite lookup_insert_ne by done. rewrite lookup_insert_ne by done.
    destruct (s !! ref) as [d|]; simpl; [done|]. by rewrite lookup_empty.
  - by rewrite set_merge_other.
Qed.

Lemma union_one_prefix (arr : list entry) (e : entry) :
  arr `prefix_of` union_one arr e.
Proof.
  unfold union_one. destruct (decide (e ∈ arr)).
  - done.
  - by exists [e].
Qed.

Lemma array_of_not_date (k : log_kind) : array_of k ≠ "date".
Proof. by destruct k. Qed.

Lemma run_op_run (E : env) (op : write_op) (w : world) :
  run_op E op w
  = (Ok tt,
     {| db := set_merge (doc_ref (uid_of op) (collection_of (kind_of op)) (today E w))
                (today E w) (array_of (kind_of op)) [new_entry E op w] (db w);
        ticks := S (S (ticks w));
        draws := draws w |}).
Proof. by destruct op. Qed.

Lemma run_op_log (E : env) (op : write_op) (w : world) :
  log_of (db (snd (run_op E op w))) (kind_of op) (uid_of op) (today E w)
  = union_one (log_of (db w) (kind_of op) (uid_of op) (today E w)) (new_entry E op w).
Proof.
  rewrite run_op_run. simpl. unfold log_of.
  apply stored_array_set_merge, array_of_not_date.
Qed.

Lemma run_op_prefix (E : env) (op : write_op) (w : world)
    (k : log_kind) (uid date_str : string) :
  log_of (db w) k uid date_str
  `prefix_of` log_of (db (snd (run_op E op w))) k uid date_str.
Proof.
  rewrite run_op_run. simpl. unfold log_of.
  destruct (decide (k = kind_of op ∧ uid = uid_of op ∧ date_str = today E w))
    as [(-> & -> & ->)|Hne].
  - rewrite stored_array_set_merge by apply array_of_not_date.
    apply union_one_prefix.
  - rewrite stored_array_set_merge_other; [done|apply array_of_not_date|].
    unfold doc_ref. intros [= -> _ -> Hk]. apply Hne.
    split; [|done]. by destruct k, (kind_of op).
Qed.

Lemma run_ops_prefix (E : env) (ops : list write_op) (w : world)
    (k : log_kind) (uid date_str : string) :
  fst (run_ops E ops w) = Ok tt
  ∧ log_of (db w) k uid date_str
    `prefix_of` log_of (db (snd (run_ops E ops w))) k uid date_str.
Proof.
  revert w. induction ops as [|op ops IH]; intros w; simpl.
  - done.
  - unfold bind. pose proof (run_op_prefix E op w k uid date_str) as Hp.
    rewrite run_op_run in *. simpl in *.
    destruct (IH {| db := set_merge (doc_ref (uid_of op) (collection_of (kind_of op)) (today E w))
                            (today E w) (array_of (kind_of op)) [new_entry E op w] (db w);
                    ticks := S (S (ticks w)); draws := draws w |}) as [Hok Hq].
    split; [done|]. by etrans.
Qed.

(** C5 as stated fails: when the clock gives the same reading again, the
    second append of the same turn hands [ArrayUnion] an entry equal to a
    stored one, and the stored sequence does not grow. *)
Lemma append_equal_entry_counterexample :
  ¬ (∀ (E : env) (op : write_op) (w : world),
       log_of (db (snd (run_op E op w))) (kind_of op) (uid_of op) (today E w)
       = log_of (db w) (kind_of op) (uid_of op) (today E w) ++ [new_entry E op w]).
Proof.
  intros H.
  specialize (H Sample.coarse_service (appendChatTurn "bob" "s1" "hi" "hello")
                (snd (run_op Sample.coarse_service (appendChatTurn "bob" "s1" "hi" "hello")
                        Sample.empty_world))).
  vm_compute in H. discriminate H.
Qed.

(** C5 (amended).  Each append leaves the stored sequence as it was when
    an equal entry is already stored, and otherwise adds the new entry at
    the end; over every sequence of appends, every operation succeeds and
    the sequence each daily log held before is a prefix of the one it
    holds after, so no stored entry is removed, edited or reordered. *)
Theorem appends_extend_or_keep (E : env) :
  (∀ (op : write_op) (w : world),
     let old := log_of (db w) (kind_of op) (uid_of op) (today E w) in
     log_of (db (snd (run_op E op w))) (kind_of op) (uid_of op) (today E w)
     = if decide (new_entry E op w ∈ old) then old else old ++ [new_entry E op w])
  ∧ (∀ (ops : list write_op) (w : world) (k : log_kind) (uid date_str : string),
       fst (run_ops E ops w) = Ok tt
       ∧ log_of (db w) k uid date_str
         `prefix_of` log_of (db (snd (run_ops E ops w))) k uid date_str).
Proof.
  split.
  - intros op w. apply run_op_log.
  - intros ops w k uid date_str. apply run_ops_prefix.
Qed.

(** ** The chat handler, step by step *)

(** The world in which [chat] starts writing: as received, except that a
    generated session identifier has used one draw. *)
Lemma chat_run (E : env) (req : request) (uid msg : string) (w : world) :
  verify_token E req = Some uid → uid ≠ "" →
  json req !! "message" = Some msg → msg ≠ "" →
  ∃ w0 : world,
    db w0 = db w ∧ ticks w0 = ticks w
    ∧ (draws w0 = draws w ∨ draws w0 = S (draws w))
    ∧ (json req !! "session_id" = None ∨ json req !! "session_id" = Some "" →
       draws w0 = S (draws w))
    ∧ chat E req w
      = let session_id := resolve_session_id E req w in
        let w1 := snd (run_op E (appendUserMessage uid session_id msg) w0) in
        match get_session_history E uid session_id w1 with
        | (Ok conversation, w2) =>
            match ChatCompletion_create E
                    (conversation ++ [ {| role := "user"; content := msg |} ]) with
            | Ok bot_response =>
                (Ok (jsonify (JChat bot_response session_id) 200),
                 snd (run_op E (appendChatTurn uid session_id msg bot_response) w2))
            | Raise e => (Raise e, w2)
            end
        | (Raise e, w2) => (Raise e, w2)
        end.
Proof.
  intros Hv Hne Hm Hmne.
  exists (snd (py_or (json req !! "session_id") (str_uuid4 E) w)).
  rewrite py_or_session_id.
  split; [|split; [|split; [|split]]].
  - by destruct (json req !! "session_id") as [[|c s]|].
  - by destruct (json req !! "session_id") as [[|c s]|].
  - destruct (json req !! "session_id") as [[|c s]|]; simpl; auto.
  - intros [-> | ->]; done.
  - unfold chat. rewrite Hv. destruct uid as [|a uid]; [done|].
    rewrite Hm. destruct msg as [|b msg]; [done|].
    unfold bind at 1. rewrite py_or_session_id. simpl.
    unfold bind at 1. simpl.
    unfold bind at 1.
    destruct (get_session_history E _ _ _) as [[conversation|e] w2]; [|done].
    unfold bind at 1, get_response, lift.
    destruct (ChatCompletion_create E _) as [bot_response|e]; [|done].
    unfold bind, ret. reflexivity.
Qed.

Lemma get_session_history_world (E : env) (uid session_id : string) (w : world) :
  snd (get_session_history E uid session_id w) = tick w.
Proof. by rewrite get_session_history_reads. Qed.

(** The user-message append does not touch the chat-history collection,
    so the history assembled after it is the one the store held before,
    read at the third clock reading of the request. *)
Lemma history_after_user_append (E : env) (uid session_id msg : string) (w w0 : world) :
  db w0 = db w → ticks w0 = ticks w →
  fst (get_session_history E uid session_id
         (snd (run_op E (appendUserMessage uid session_id msg) w0)))
  = fst (get_session_history E uid session_id (tick (tick w))).
Proof.
  intros Hdb Ht. rewrite run_op_run, !get_session_history_reads. simpl.
  unfold today. simpl. rewrite Ht, Hdb.
  by rewrite set_merge_other.
Qed.

Lemma chat_succeeds (E : env) (req : request) (uid msg : string) (w : world)
    (conversation : list message) (bot_response : string) :
  verify_token E req = Some uid → uid ≠ "" →
  json req !! "message" = Some msg → msg ≠ "" →
  fst (get_session_history E uid (resolve_session_id E req w) (tick (tick w)))
  = Ok conversation →
  ChatCompletion_create E (conversation ++ [ {| role := "user"; content := msg |} ])
  = Ok bot_response →
  fst (chat E req w)
  = Ok (jsonify (JChat bot_response (resolve_session_id E req w)) 200).
Proof.
  intros Hv Hne Hm Hmne Hh Hc.
  destruct (chat_run E req uid msg w Hv Hne Hm Hmne) as (w0 & Hdb & Ht & _ & _ & ->).
  cbv zeta.
  pose proof (history_after_user_append E uid (resolve_session_id E req w) msg w w0 Hdb Ht)
    as Hh'.
  rewrite Hh in Hh'.
  destruct (get_session_history E uid (resolve_session_id E req w)
              (snd (run_op E (appendUserMessage uid (resolve_session_id E req w) msg) w0)))
    as [[conv|e] w2]; simpl in Hh'; [|done].
  injection Hh' as ->. by rewrite Hc.
Qed.




(** C4.  When the user message has been appended and the completion call
    then raises, the request ends with that exception, the daily message
    log holds the appended user message, and every other document, every
    chat-history document among them, is exactly as before: no entry for
    the turn is written and the append is not rolled back.
    [conversation] is the history the handler assembles: the append takes
    the first two clock readings of the request and leaves the chat
    history alone, so it is the assembly over the store as received, at
    the third reading. *)
Theorem completion_failure_keeps_user_message (E : env) (req : request)
    (uid msg : string) (conversation : list message) (e : exn) (w : world) :
  verify_token E req = Some uid → uid ≠ "" →
  json req !! "message" = Some msg → msg ≠ "" →
  fst (get_session_history E uid (resolve_session_id E req w) (tick (tick w)))
  = Ok conversation →
  ChatCompletion_create E (conversation ++ [ {| role := "user"; content := msg |} ])
  = Raise e →
  let w' := snd (chat E req w) in
  let new := user_entry (resolve_session_id E req w) msg
               (isoformat (clock E (S (ticks w)))) in
  let old := log_of (db w) DailyUserMessageLog uid (today E w) in
  fst (chat E req w) = Raise e
  ∧ log_of (db w') DailyUserMessageLog uid (today E w)
    = (if decide (new ∈ old) then old else old ++ [new])
  ∧ new ∈ log_of (db w') DailyUserMessageLog uid (today E w)
  ∧ (∀ uid' date_str,
       db w' !! doc_ref uid' "chat_history" date_str
       = db w !! doc_ref uid' "chat_history" date_str)
  ∧ (∀ ref, ref ≠ doc_ref uid "user_sessions" (today E w) → db w' !! ref = db w !! ref).
Proof.
  intros Hv Hne Hm Hmne Hh Hc w' new old. subst w'.
  destruct (chat_run E req uid msg w Hv Hne Hm Hmne) as (w0 & Hdb & Ht & _ & _ & ->).
  cbv zeta.
  pose proof (history_after_user_append E uid (resolve_session_id E req w) msg w w0 Hdb Ht)
    as Hh'.
  pose proof (get_session_history_world E uid (resolve_session_id E req w)
                (snd (run_op E (appendUserMessage uid (resolve_session_id E req w) msg) w0)))
    as Hw2.
  rewrite Hh in Hh'.
  destruct (get_session_history E uid (resolve_session_id E req w)
              (snd (run_op E (appendUserMessage uid (resolve_session_id E req w) msg) w0)))
    as [[conv|e'] w2]; simpl in Hh', Hw2; [|done].
  injection Hh' as ->. rewrite Hc. simpl. subst w2. simpl.
  unfold today in *. rewrite Ht, Hdb.
  assert (log_of (set_merge (doc_ref uid "user_sessions" (ymd (clock E (ticks w))))
                    (ymd (clock E (ticks w))) "user_messages" [new] (db w))
            DailyUserMessageLog uid (ymd (clock E (ticks w)))
          = union_one old new) as Hlog
    by (unfold log_of; simpl; by rewrite stored_array_set_merge).
  split; [done|]. split; [exact Hlog|]. split; [|split].
  - unfold new, user_entry in *. rewrite Hlog. unfold union_one.
    destruct (decide _) as [Hin|Hnin]; [done|].
    apply elem_of_app. right. by apply list_elem_of_singleton.
  - intros uid' date_str. by rewrite set_merge_other.
  - intros ref Href. by rewrite set_merge_other.
Qed.

Lemma completion_failure_keeps_user_message_witness :
  let req := Sample.mk_request [("X-UID", "bob")] [("message", "hi"); ("session_id", "s1")] [] in
  let w := Sample.world_of Sample.store_today in
  let w' := snd (chat Sample.failing_service req w) in
  let new := user_entry "s1" "hi" "2024-05-02T10:15:01+05:30" in
  fst (chat Sample.failing_service req w) = Raise UpstreamError
  ∧ log_of (db w') DailyUserMessageLog "bob" "2024-05-02" = [new]
  ∧ new ∈ log_of (db w') DailyUserMessageLog "bob" "2024-05-02"
  ∧ (∀ uid' date_str,
       db w' !! doc_ref uid' "chat_history" date_str
       = db w !! doc_ref uid' "chat_history" date_str)
  ∧ (∀ ref, ref ≠ doc_ref "bob" "user_sessions" "2024-05-02" → db w' !! ref = db w !! ref).
Proof.
  apply (completion_failure_keeps_user_message Sample.failing_service
           (Sample.mk_request [("X-UID", "bob")] [("message", "hi"); ("session_id", "s1")] [])
           "bob" "hi"
           [ system_entry;
             {| role := "user"; content := "hi" |};
             {| role := "assistant"; content := "hello" |};
             {| role := "user"; content := "bye" |};
             {| role := "assistant"; content := "take care" |} ]
           UpstreamError (Sample.world_of Sample.store_today)).
  - vm_compute. reflexivity.
  - discriminate.
  - vm_compute. reflexivity.
  - discriminate.
  - vm_compute. reflexivity.
  - reflexivity.
Defined.

(** ** The bearer token and the entries the program writes *)

Lemma prefix_append (s1 s2 : string) :
  String.prefix s1 s2 = true → ∃ r, s2 = String.append s1 r.
Proof.
  revert s2. induction s1 as [|a s1 IH]; intros s2 H.
  - by exists s2.
  - destruct s2 as [|b s2]; simpl in H; [done|].
    destruct (Ascii.ascii_dec a b) as [->|]; [|done].
    destruct (IH s2 H) as [r ->]. by exists r.
Qed.

Lemma split_from_cons (sep : string) (skip : nat) (piece s : string) :
  ∃ t rest, split_from sep skip piece s = t :: rest.
Proof.
  revert skip piece. induction s as [|c s IH]; intros skip piece; cbn [split_from].
  - by eexists _, _.
  - destruct skip as [|skip]; [|apply IH].
    destruct (String.prefix sep (String c s)); [by eexists _, _|apply IH].
Qed.

Lemma split_bearer_prefix (r : string) :
  split "Bearer " (String.append "Bearer " r) = "" :: split "Bearer " r.
Proof. by destruct r. Qed.

(** A header that starts with the bearer prefix always splits into at
    least two pieces: the subscript [1] of the source cannot fail. *)
Lemma split_bearer_has_second (h : string) :
  String.prefix "Bearer " h = true →
  ∃ t rest, split "Bearer " h = "" :: t :: rest.
Proof.
  intros H. destruct (prefix_append _ _ H) as [r ->].
  rewrite split_bearer_prefix. unfold split.
  destruct (split_from_cons "Bearer " 0 "" r) as (t & rest & ->).
  by exists t, rest.
Qed.

Lemma append_snoc (piece : string) (c : Ascii.ascii) (s : string) :
  String.append (String.append piece (String c "")) s = String.append piece (String c s).
Proof.
  induction piece as [|a piece IH]; [reflexivity|exact (f_equal (String a) IH)].
Qed.

Lemma append_empty_r (s : string) : String.append s "" = s.
Proof.
  induction s as [|a s IH]; [reflexivity|exact (f_equal (String a) IH)].
Qed.

(** A string without an occurrence of the separator is a single piece. *)
Lemma split_from_no_occurrence (sep piece s : string) :
  (∀ a b, s ≠ String.append a (String.append sep b)) →
  split_from sep 0 piece s = [String.append piece s].
Proof.
  revert piece. induction s as [|c s IH]; intros piece Hno; cbn [split_from].
  - by rewrite append_empty_r.
  - destruct (String.prefix sep (String c s)) eqn:Hp.
    + destruct (prefix_append _ _ Hp) as [r Hr].
      by destruct (Hno "" r).
    + rewrite IH; [by rewrite append_snoc|].
      intros a b ->. by apply (Hno (String c a) b).
Qed.

(** The token of a well-formed header is what follows the prefix. *)
Lemma bearer_token_of_header (tok : string) :
  (∀ a b, tok ≠ String.append a (String.append "Bearer " b)) →
  bearer_token (String.append "Bearer " tok) = tok.
Proof.
  intros Hno. unfold bearer_token. rewrite split_bearer_prefix. unfold split.
  by rewrite split_from_no_occurrence.
Qed.



(** ** More on identity resolution *)

Lemma append_assoc (a b c : string) :
  String.append (String.append a b) c = String.append a (String.append b c).
Proof.
  induction a as [|x a IH]; [reflexivity|exact (f_equal (String x) IH)].
Qed.

(** A prefix test only looks at as many characters as the prefix has. *)
Lemma prefix_app_l (s u v : string) :
  (String.length s <= String.length u)%nat →
  String.prefix s (String.append u v) = String.prefix s u.
Proof.
  revert u. induction s as [|x s IH]; intros u Hl.
  - destruct u; [destruct v|]; reflexivity.
  - destruct u as [|y u]; [simpl in Hl; lia|].
    change (String.append (String y u) v) with (String y (String.append u v)).
    simpl. destruct (Ascii.ascii_dec x y); [|done].
    apply IH. simpl in Hl. lia.
Qed.

Lemma length_append (a b : string) :
  String.length (String.append a b) = String.length a + String.length b.
Proof.
  induction a as [|x a IH]; [reflexivity|].
  change (String.append (String x a) b) with (String x (String.append a b)).
  simpl. by rewrite IH.
Qed.

(** A piece in which the separator starts nowhere, not even across its
    end, and that is followed by the separator, ends at it. *)
Lemma split_from_piece (a b piece : string) :
  free_of "Bearer " (String.append a "Bearer") = true →
  split_from "Bearer " 0 piece (String.append a (String.append "Bearer " b))
  = String.append piece a :: split_from "Bearer " 0 "" b.
Proof.
  revert piece. induction a as [|c a IH]; intros piece Ha.
  - rewrite append_empty_r. by destruct b.
  - change (String.append (String c a) (String.append "Bearer " b))
      with (String c (String.append a (String.append "Bearer " b))).
    change (String.append (String c a) "Bearer")
      with (String c (String.append a "Bearer")) in Ha.
    cbn [free_of] in Ha. apply andb_prop in Ha as [Hp Ha].
    apply negb_true_iff in Hp.
    cbn [split_from].
    assert (String.prefix "Bearer " (String c (String.append a (String.append "Bearer " b)))
            = String.prefix "Bearer " (String c (String.append a "Bearer"))) as ->.
    { change (String c (String.append a (String.append "Bearer " b)))
        with (String.append (String c a) (String.append "Bearer " b)).
      change (String.append "Bearer " b) with (String.append "Bearer" (String.append " " b)).
      rewrite <- append_assoc.
      change (String c (String.append a "Bearer")) with (String.append (String c a) "Bearer").
      apply prefix_app_l. rewrite length_append. simpl. lia. }
    rewrite Hp.
    rewrite IH by done. by rewrite append_snoc.
Qed.

Lemma split_from_free (piece s : string) :
  free_of "Bearer " s = true → split_from "Bearer " 0 piece s = [String.append piece s].
Proof.
  revert piece. induction s as [|c s IH]; intros piece Hs.
  - cbn [split_from]. by rewrite append_empty_r.
  - cbn [free_of] in Hs. apply andb_prop in Hs as [Hp Hs].
    apply negb_true_iff in Hp. cbn [split_from]. rewrite Hp.
    rewrite IH by done. by rewrite append_snoc.
Qed.

Lemma verify_token_authorization (E : env) (req : request) (rest : string) :
  headers req !! "X-UID" = None ∨ headers req !! "X-UID" = Some "" →
  headers req !! "Authorization" = Some (String.append "Bearer " rest) →
  verify_token E req = verify_id_token E (nth 1 ("" :: split "Bearer " rest) "").
Proof.
  intros Hx Ha. unfold verify_token.
  assert (truthy (headers req !! "X-UID") = false) as ->
    by (destruct Hx as [-> | ->]; done).
  rewrite Ha.
  assert (truthy (Some (String.append "Bearer " rest)) = true) as -> by done.
  assert (String.prefix "Bearer " (String.append "Bearer " rest) = true) as ->
    by (by destruct rest).
  cbn [negb orb]. unfold bearer_token. by rewrite split_bearer_prefix.
Qed.

Lemma verify_token_cases (E : env) (req : request) :
  verify_token E req
  = match headers req !! "X-UID" with
    | Some (String c s) => Some (String c s)
    | _ =>
        match headers req !! "Authorization" with
        | Some h =>
            if String.prefix "Bearer " h then verify_id_token E (bearer_token h) else None
        | None => None
        end
    end.
Proof.
  unfold verify_token.
  destruct (headers req !! "X-UID") as [[|c s]|]; cbn [truthy]; [|done|];
    (destruct (headers req !! "Authorization") as [[|b h]|]; cbn [truthy negb orb];
     [done| |done]);
    by destruct (String.prefix "Bearer " (String b h)).
Qed.

(** X1.  Identity resolution succeeds with a uid exactly when a non-empty
    X-UID header carries it, or when that header is absent or empty and
    the Authorization header starts with the bearer prefix and the
    identity service accepts its token for that uid. *)
Theorem verify_token_resolves (E : env) (req : request) (uid : string) :
  verify_token E req = Some uid ↔
  (headers req !! "X-UID" = Some uid ∧ uid ≠ "")
  ∨ ((headers req !! "X-UID" = None ∨ headers req !! "X-UID" = Some "")
     ∧ ∃ h, headers req !! "Authorization" = Some h
            ∧ String.prefix "Bearer " h = true
            ∧ verify_id_token E (bearer_token h) = Some uid).
Proof.
  rewrite verify_token_cases.
  destruct (headers req !! "X-UID") as [[|c s]|] eqn:Hx.
  - destruct (headers req !! "Authorization") as [h|];
      [destruct (String.prefix "Bearer " h) eqn:Hp|];
      (split;
       [ intros Hv; first [done | right; split; [auto|]; by exists h]
       | intros [[H Hne]|[_ (h' & Hh & Hp' & Hv)]]; simplify_eq; try done; congruence ]).
  - split.
    + intros [= <-]. by left.
    + intros [[H _]|[[H|H] _]]; done.
  - destruct (headers req !! "Authorization") as [h|];
      [destruct (String.prefix "Bearer " h) eqn:Hp|];
      (split;
       [ intros Hv; first [done | right; split; [auto|]; by exists h]
       | intros [[H Hne]|[_ (h' & Hh & Hp' & Hv)]]; simplify_eq; try done; congruence ]).
Qed.

(** X2.  Without a usable X-UID header, a header made of the bearer
    prefix and a token in which the prefix does not occur again is
    resolved by asking the identity service about exactly that token. *)
Theorem verify_token_bearer (E : env) (req : request) (tok : string) :
  headers req !! "X-UID" = None ∨ headers req !! "X-UID" = Some "" →
  headers req !! "Authorization" = Some (String.append "Bearer " tok) →
  free_of "Bearer " tok = true →
  verify_token E req = verify_id_token E tok.
Proof.
  intros Hx Ha Htok. rewrite (verify_token_authorization E req tok Hx Ha).
  unfold split. by rewrite split_from_free.
Qed.

Lemma verify_token_bearer_witness :
  verify_token Sample.service
    (Sample.mk_request [("Authorization", "Bearer tok-alice")] [] [])
  = verify_id_token Sample.service "tok-alice".
Proof.
  apply (verify_token_bearer Sample.service
           (Sample.mk_request [("Authorization", "Bearer tok-alice")] [] []) "tok-alice").
  - left. vm_compute. reflexivity.
  - vm_compute. reflexivity.
  - vm_compute. reflexivity.
Defined.

(** X3.  When the bearer prefix occurs a second time in the header, the
    token handed to the identity service is the text between the two
    occurrences: what follows the second one is ignored.  [a] is the text
    up to the first later occurrence of the prefix. *)
Theorem bearer_token_stops_at_second_prefix (E : env) (req : request) (a b : string) :
  headers req !! "X-UID" = None ∨ headers req !! "X-UID" = Some "" →
  headers req !! "Authorization"
  = Some (String.append "Bearer " (String.append a (String.append "Bearer " b))) →
  free_of "Bearer " (String.append a "Bearer") = true →
  verify_token E req = verify_id_token E a.
Proof.
  intros Hx Ha Htok. rewrite (verify_token_authorization E req _ Hx Ha).
  unfold split. by rewrite split_from_piece.
Qed.

Lemma bearer_token_stops_at_second_prefix_witness :
  verify_token Sample.service
    (Sample.mk_request [("Authorization", "Bearer tok-alice Bearer tok-mallory")] [] [])
  = verify_id_token Sample.service "tok-alice ".
Proof.
  apply (bearer_token_stops_at_second_prefix Sample.service
           (Sample.mk_request [("Authorization", "Bearer tok-alice Bearer tok-mallory")] [] [])
           "tok-alice " "tok-mallory").
  - left. vm_compute. reflexivity.
  - vm_compute. reflexivity.
  - vm_compute. reflexivity.
Defined.

(** ** What the handlers do to the store *)

Lemma get_chat_history_world (E : env) (req : request) (w : world) :
  snd (get_chat_history E req w) = w ∨ snd (get_chat_history E req w) = tick w.
Proof.
  unfold get_chat_history.
  destruct (verify_token E req) as [[|a uid]|]; [by left| |by left].
  unfold py_or, bind, get_date_str, get_ist_time, ret, doc_get, lift, tick.
  destruct (args req !! "date") as [[|c s]|]; simpl;
    (destruct (db w !! _) as [d|]; simpl; [|auto]);
    (destruct (default _ _) as [[|c' s']|chats]; simpl; [auto|auto|]);
    destruct (comprehension chats); simpl; auto.
Qed.

Lemma get_chat_history_db (E : env) (req : request) (w : world) :
  db (snd (get_chat_history E req w)) = db w.
Proof. by destruct (get_chat_history_world E req w) as [-> | ->]. Qed.

(** X4.  The history request never writes: whatever the request and
    whether it is answered, refused or ends with an exception, the store
    afterwards is the store before, and at most one clock reading has been
    taken. *)
Theorem get_chat_history_is_read_only (E : env) (req : request) (w : world) :
  db (snd (get_chat_history E req w)) = db w
  ∧ draws (snd (get_chat_history E req w)) = draws w
  ∧ (ticks (snd (get_chat_history E req w)) = ticks w
     ∨ ticks (snd (get_chat_history E req w)) = S (ticks w)).
Proof.
  destruct (get_chat_history_world E req w) as [-> | ->]; simpl; auto.
Qed.

(** The store [chat] leaves: the one it found, or that store after the
    user-message append, or after both appends. *)
Lemma chat_db (E : env) (req : request) (w : world) :
  db (snd (chat E req w)) = db w
  ∨ ∃ uid msg,
      verify_token E req = Some uid ∧ uid ≠ ""
      ∧ json req !! "message" = Some msg ∧ msg ≠ ""
      ∧ let sid := resolve_session_id E req w in
        let s1 := set_merge (doc_ref uid "user_sessions" (ymd (clock E (ticks w))))
                    (ymd (clock E (ticks w))) "user_messages"
                    [user_entry sid msg (isoformat (clock E (S (ticks w))))] (db w) in
        db (snd (chat E req w)) = s1
        ∨ ∃ bot,
            fst (chat E req w) = Ok (jsonify (JChat bot sid) 200)
            ∧ ticks (snd (chat E req w)) = 5 + ticks w
            ∧ db (snd (chat E req w))
              = set_merge (doc_ref uid "chat_history" (ymd (clock E (3 + ticks w))))
                  (ymd (clock E (3 + ticks w))) "chats"
                  [turn_entry sid msg bot (isoformat (clock E (4 + ticks w)))] s1.
Proof.
  destruct (verify_token E req) as [uid|] eqn:Hv;
    [|left; by rewrite chat_unauthorized by auto].
  destruct (decide (uid = "")) as [->|Hne];
    [left; by rewrite chat_unauthorized by auto|].
  destruct (json req !! "message") as [msg|] eqn:Hm.
  2:{ left. unfold chat. rewrite Hv, Hm. destruct uid as [|a uid]; [done|].
      unfold bind. rewrite py_or_session_id. unfold ret.
      by destruct (json req !! "session_id") as [[|c s]|]. }
  destruct (decide (msg = "")) as [->|Hmne].
  { left. unfold chat. rewrite Hv, Hm. destruct uid as [|a uid]; [done|].
    unfold bind. rewrite py_or_session_id. unfold ret.
    by destruct (json req !! "session_id") as [[|c s]|]. }
  right. exists uid, msg. split; [done|]. split; [done|]. split; [done|]. split; [done|].
  destruct (chat_run E req uid msg w Hv Hne Hm Hmne) as (w0 & Hdb & Ht & _ & _ & ->).
  cbv zeta.
  set (w1 := snd (run_op E (appendUserMessage uid (resolve_session_id E req w) msg) w0)).
  assert (w1 = {| db := set_merge (doc_ref uid "user_sessions" (ymd (clock E (ticks w))))
                          (ymd (clock E (ticks w))) "user_messages"
                          [user_entry (resolve_session_id E req w) msg
                             (isoformat (clock E (S (ticks w))))] (db w);
                  ticks := S (S (ticks w)); draws := draws w0 |}) as Hw1.
  { subst w1. rewrite run_op_run. unfold today. simpl. by rewrite Ht, Hdb. }
  clearbody w1.
  pose proof (get_session_history_world E uid (resolve_session_id E req w) w1) as Hw2.
  destruct (get_session_history E uid (resolve_session_id E req w) w1) as [[conv|e] w2];
    simpl in Hw2; subst w2 w1; [|by left].
  destruct (ChatCompletion_create E _) as [bot|e]; [|by left].
  right. exists bot. rewrite run_op_run. by unfold today.
Qed.

Lemma log_of_set_merge_prefix (s : store) (k0 : log_kind) (uid0 date0 d : string)
    (e : entry) (k : log_kind) (uid date_str : string) :
  log_of s k uid date_str
  `prefix_of` log_of (set_merge (doc_ref uid0 (collection_of k0) date0) d (array_of k0) [e] s)
                k uid date_str.
Proof.
  unfold log_of.
  destruct (decide (k = k0 ∧ uid = uid0 ∧ date_str = date0)) as [(-> & -> & ->)|Hne].
  - rewrite stored_array_set_merge by apply array_of_not_date.
    apply union_one_prefix.
  - rewrite stored_array_set_merge_other; [done|apply array_of_not_date|].
    unfold doc_ref. intros [= -> _ -> Hk]. apply Hne.
    split; [|done]. by destruct k, k0.
Qed.

Lemma chat_prefix (E : env) (req : request) (w : world)
    (k : log_kind) (uid date_str : string) :
  log_of (db w) k uid date_str
  `prefix_of` log_of (db (snd (chat E req w))) k uid date_str.
Proof.
  destruct (chat_db E req w) as [-> | (u & msg & _ & _ & _ & _ & H)]; [done|].
  cbv zeta in H.
  pose proof (log_of_set_merge_prefix (db w) DailyUserMessageLog u
                (ymd (clock E (ticks w))) (ymd (clock E (ticks w)))
                (user_entry (resolve_session_id E req w) msg
                   (isoformat (clock E (S (ticks w))))) k uid date_str) as H1.
  destruct H as [-> | (bot & _ & _ & ->)]; [exact H1|].
  etrans; [exact H1|].
  apply (log_of_set_merge_prefix _ DailyChatHistory).
Qed.

(** X6.  Serving is append-only: over every sequence of chat and history
    requests, whatever each of them carries and however it ends, the
    sequence a daily log held before is a prefix of the one it holds
    after.  No request removes, edits or reorders a stored entry. *)
Theorem serve_is_append_only (E : env) (calls : list call) (w : world)
    (k : log_kind) (uid date_str : string) :
  log_of (db w) k uid date_str
  `prefix_of` log_of (db (serve E calls w)) k uid date_str.
Proof.
  revert w. induction calls as [|c calls IH]; intros w; simpl; [done|].
  etrans; [|apply IH].
  destruct c as [req|req]; simpl.
  - apply chat_prefix.
  - by rewrite get_chat_history_db.
Qed.

(** X5.  A chat request changes no document but the two daily documents
    of the user it resolves to: the message log of the day of its first
    clock reading and the chat history of the day of its fourth. *)
Theorem chat_changes_own_documents_only (E : env) (req : request) (w : world) (ref : path) :
  db (snd (chat E req w)) !! ref ≠ db w !! ref →
  ∃ uid, verify_token E req = Some uid
         ∧ (ref = doc_ref uid "user_sessions" (ymd (clock E (ticks w)))
            ∨ ref = doc_ref uid "chat_history" (ymd (clock E (3 + ticks w)))).
Proof.
  intros Hch.
  destruct (chat_db E req w) as [Heq | (u & msg & Hv & _ & _ & _ & H)];
    [by rewrite Heq in Hch|].
  exists u. split; [done|]. cbv zeta in H.
  destruct (decide (ref = doc_ref u "user_sessions" (ymd (clock E (ticks w)))))
    as [|Hn1]; [by left|].
  destruct (decide (ref = doc_ref u "chat_history" (ymd (clock E (3 + ticks w)))))
    as [|Hn2]; [by right|].
  exfalso. apply Hch.
  destruct H as [-> | (bot & _ & _ & ->)]; by rewrite !set_merge_other.
Qed.

Lemma chat_changes_own_documents_only_witness :
  ∃ uid, verify_token Sample.service (Scenario.chat_request "s1" "hi") = Some uid
         ∧ (doc_ref "bob" "user_sessions" "2024-05-02"
            = doc_ref uid "user_sessions"
                (ymd (clock Sample.service (ticks Sample.empty_world)))
            ∨ doc_ref "bob" "user_sessions" "2024-05-02"
              = doc_ref uid "chat_history"
                  (ymd (clock Sample.service (3 + ticks Sample.empty_world)))).
Proof.
  apply (chat_changes_own_documents_only Sample.service (Scenario.chat_request "s1" "hi")
           Sample.empty_world (doc_ref "bob" "user_sessions" "2024-05-02")).
  vm_compute. discriminate.
Defined.

(** ** Writing a turn and reading it back *)

Lemma get_session_history_readable (E : env) (uid session_id : string) (w : world) :
  day_readable (db w) uid (today E w) →
  fst (get_session_history E uid session_id w)
  = Ok (assembled session_id (log_of (db w) DailyChatHistory uid (today E w))).
Proof.
  intros Hr. rewrite get_session_history_reads. cbn [fst].
  unfold day_readable in Hr. unfold log_of, stored_array, assembled. simpl.
  destruct (db w !! doc_ref uid "chat_history" (today E w)) as [d|]; [|done].
  destruct (d !! "chats") as [[s|chats]|]; simpl; [done| |done].
  by rewrite (session_loop_complete _ _ _ Hr).
Qed.

Lemma day_readable_turn (s : store) (uid date_str d sid um bm ts : string) :
  day_readable s uid date_str →
  day_readable (set_merge (doc_ref uid "chat_history" date_str) d "chats"
                  [turn_entry sid um bm ts] s) uid date_str.
Proof.
  unfold day_readable, set_merge. rewrite lookup_insert_eq, lookup_insert_eq.
  unfold ArrayUnion. simpl.
  destruct (s !! doc_ref uid "chat_history" date_str) as [d0|]; simpl.
  - destruct (d0 !! "chats") as [[x|chats]|]; [done| |].
    + intros Hc. unfold union_one. destruct (decide _); [done|].
      apply Forall_app. split; [done|]. repeat constructor; by eexists.
    + intros _. repeat constructor; by eexists.
  - intros _. rewrite lookup_empty. repeat constructor; by eexists.
Qed.

Lemma assembled_union_one (session_id : string) (old : list entry)
    (sid um bm ts : string) :
  assembled session_id (union_one old (turn_entry sid um bm ts))
  = if decide (turn_entry sid um bm ts ∈ old) then assembled session_id old
    else if decide (sid = session_id)
         then assembled session_id old ++ [user_message_of um; assistant_message_of bm]
         else assembled session_id old.
Proof.
  unfold union_one. destruct (decide (_ ∈ old)); [done|].
  unfold assembled. rewrite filter_app, flat_map_app.
  destruct (decide (sid = session_id)) as [->|Hne].
  - rewrite (filter_cons_True _ _ []) by done. reflexivity.
  - rewrite (filter_cons_False _ _ []).
    + cbn [filter list_filter flat_map]. by rewrite app_nil_r.
    + unfold in_session, turn_entry. intros [= ?]. done.
Qed.

Lemma save_chat_history_run (E : env) (uid sid um bm : string) (w : world) :
  snd (save_chat_history E uid sid um bm w)
  = {| db := set_merge (doc_ref uid "chat_history" (today E w)) (today E w) "chats"
               [turn_entry sid um bm (isoformat (clock E (S (ticks w))))] (db w);
       ticks := S (S (ticks w));
       draws := draws w |}.
Proof. reflexivity. Qed.

Lemma history_after_turn (E : env) (uid sid um bm session_id : string) (w : world) :
  day_readable (db w) uid (today E w) →
  ymd (clock E (2 + ticks w)) = today E w →
  fst (get_session_history E uid session_id (snd (save_chat_history E uid sid um bm w)))
  = Ok (assembled session_id
          (union_one (log_of (db w) DailyChatHistory uid (today E w))
             (turn_entry sid um bm (isoformat (clock E (S (ticks w))))))).
Proof.
  intros Hr Hday. rewrite save_chat_history_run.
  match goal with |- context [get_session_history E uid session_id ?W] => set (w1 := W) end.
  assert (today E w1 = today E w) as Ht by exact Hday.
  rewrite get_session_history_readable; rewrite Ht; subst w1; cbn [db].
  - unfold log_of. cbn [collection_of array_of]. by rewrite stored_array_set_merge.
  - by apply day_readable_turn.
Qed.

(** X7.  A turn that is written can be read back: when the clock stays on
    the same day, the context assembled for the session right after
    [save_chat_history] is the context assembled before it followed by the
    user message and the reply of the turn.  Only when an equal entry was
    already stored does the context stay as it was. *)
Theorem saved_turn_is_assembled (E : env) (uid sid um bm : string) (w : world) :
  day_readable (db w) uid (today E w) →
  ymd (clock E (2 + ticks w)) = today E w →
  let old := log_of (db w) DailyChatHistory uid (today E w) in
  let new := turn_entry sid um bm (isoformat (clock E (S (ticks w)))) in
  fst (get_session_history E uid sid w) = Ok (assembled sid old)
  ∧ fst (get_session_history E uid sid (snd (save_chat_history E uid sid um bm w)))
    = Ok (if decide (new ∈ old) then assembled sid old
          else assembled sid old ++ [user_message_of um; assistant_message_of bm]).
Proof.
  intros Hr Hday old new. split; [by apply get_session_history_readable|].
  rewrite history_after_turn by done. rewrite assembled_union_one.
  fold old new. destruct (decide (new ∈ old)); [done|].
  by destruct (decide (sid = sid)).
Qed.

Lemma saved_turn_is_assembled_witness :
  let w := Sample.world_of Sample.store_today in
  fst (get_session_history Sample.service "bob" "s1" w)
  = Ok (assembled "s1" Sample.chats_today)
  ∧ fst (get_session_history Sample.service "bob" "s1"
           (snd (save_chat_history Sample.service "bob" "s1" "again" "welcome back" w)))
    = Ok (assembled "s1" Sample.chats_today
          ++ [user_message_of "again"; assistant_message_of "welcome back"]).
Proof.
  apply (saved_turn_is_assembled Sample.service "bob" "s1" "again" "welcome back"
           (Sample.world_of Sample.store_today)).
  - vm_compute. repeat constructor; eexists; reflexivity.
  - reflexivity.
Defined.

(** X8.  Sessions do not leak into each other: a turn written for one
    session leaves the context assembled for any other session of the
    same user and day exactly as it was. *)
Theorem other_session_is_untouched (E : env) (uid sid um bm session_id : string)
    (w : world) :
  day_readable (db w) uid (today E w) →
  ymd (clock E (2 + ticks w)) = today E w →
  sid ≠ session_id →
  fst (get_session_history E uid session_id (snd (save_chat_history E uid sid um bm w)))
  = fst (get_session_history E uid session_id w).
Proof.
  intros Hr Hday Hne. rewrite history_after_turn by done.
  rewrite get_session_history_readable by done. rewrite assembled_union_one.
  destruct (decide (_ ∈ _)); [done|]. by destruct (decide (sid = session_id)).
Qed.

Lemma other_session_is_untouched_witness :
  let w := Sample.world_of Sample.store_today in
  fst (get_session_history Sample.service "bob" "s2"
         (snd (save_chat_history Sample.service "bob" "s1" "again" "welcome back" w)))
  = fst (get_session_history Sample.service "bob" "s2" w).
Proof.
  apply (other_session_is_untouched Sample.service "bob" "s1" "again" "welcome back" "s2"
           (Sample.world_of Sample.store_today)).
  - vm_compute. repeat constructor; eexists; reflexivity.
  - reflexivity.
  - discriminate.
Defined.

(** ** Entries that miss a field *)

Lemma session_loop_missing_session_id (session_id : string) (pre post : list entry)
    (chat : entry) (history : list message) :
  Forall complete pre → chat !! "session_id" = None →
  session_loop session_id (pre ++ chat :: post) history = Raise (KeyError "session_id").
Proof.
  intros Hpre Hnone. revert history.
  induction Hpre as [|c pre (sid & um & bm) _ IH]; intros history; simpl.
  - unfold subscript. by rewrite Hnone.
  - destruct sid as [sid Hsid], um as [um Hum], bm as [bm Hbm].
    unfold subscript at 1. rewrite Hsid. simpl.
    destruct (decide (sid = session_id)); [|apply IH].
    unfold subscript at 1 2. rewrite Hum, Hbm. simpl. apply IH.
Qed.

(** X9.  One stored entry without a session_id breaks history assembly
    for every session of that user and day: the assembly raises KeyError
    when it reaches the entry, whichever session is asked for. *)
Theorem entry_without_session_id_breaks_assembly (E : env) (uid session_id : string)
    (w : world) (d : document) (pre post : list entry) (chat : entry) :
  db w !! doc_ref uid "chat_history" (today E w) = Some d →
  d !! "chats" = Some (FArr (pre ++ chat :: post)) →
  Forall complete pre →
  chat !! "session_id" = None →
  fst (get_session_history E uid session_id w) = Raise (KeyError "session_id").
Proof.
  intros Hd Hc Hpre Hnone. rewrite get_session_history_reads. cbn [fst].
  rewrite Hd, Hc. simpl. by apply session_loop_missing_session_id.
Qed.

Lemma entry_without_session_id_breaks_assembly_witness :
  fst (get_session_history Sample.service "bob" "s2"
         (Sample.world_of Scenario.store_broken))
  = Raise (KeyError "session_id").
Proof.
  apply (entry_without_session_id_breaks_assembly Sample.service "bob" "s2"
           (Sample.world_of Scenario.store_broken)
           (Sample.day_doc "2024-05-02" Scenario.chats_broken)
           [ turn_entry "s1" "hi" "hello" "2024-05-02T09:00:00+05:30" ]
           [ turn_entry "s1" "bye" "take care" "2024-05-02T09:02:00+05:30" ]
           {[ "user_message" := "lost"; "bot_message" := "found" ]}).
  - vm_compute. reflexivity.
  - vm_compute. reflexivity.
  - repeat constructor; eexists; vm_compute; reflexivity.
  - vm_compute. reflexivity.
Defined.

Lemma display_item_rendered (chat : entry) :
  renderable chat → display_item chat = Ok (rendered chat).
Proof.
  intros Hr. unfold display_item, rendered, subscript.
  destruct (truthy (chat !! "user_message")) eqn:Ht.
  - destruct (chat !! "user_message"); [done|discriminate Ht].
  - destruct Hr as [Hr|[bm Hbm]]; [congruence|]. by rewrite Hbm.
Qed.

Lemma comprehension_rendered (chats : list entry) :
  Forall renderable chats → comprehension chats = Ok (map rendered chats).
Proof.
  induction 1 as [|chat chats Hr _ IH]; simpl; [done|].
  by rewrite IH, display_item_rendered.
Qed.

Lemma comprehension_missing_bot (pre post : list entry) (chat : entry) :
  Forall renderable pre →
  truthy (chat !! "user_message") = false → chat !! "bot_message" = None →
  comprehension (pre ++ chat :: post) = Raise (KeyError "bot_message").
Proof.
  intros Hpre Hu Hb. induction Hpre as [|c pre Hr _ IH]; simpl.
  - unfold display_item, subscript. by rewrite Hu, Hb.
  - by rewrite IH, display_item_rendered.
Qed.

(** X10.  The history response has one item per stored entry: the user
    item when the entry has a non-empty user message, and the bot item
    only for an entry whose user message is absent or empty. *)
Theorem get_chat_history_renders (E : env) (req : request) (uid : string) (w : world)
    (d : document) (chats : list entry) :
  verify_token E req = Some uid → uid ≠ "" →
  db w !! doc_ref uid "chat_history" (target_date E req w) = Some d →
  d !! "chats" = Some (FArr chats) →
  Forall renderable chats →
  fst (get_chat_history E req w) = Ok (jsonify (JHistory (map rendered chats)) 200).
Proof.
  intros Hv Hne Hd Hc Hr.
  destruct (get_chat_history_reads E req uid w Hv Hne) as [-> _].
  rewrite Hd. simpl. rewrite Hc. simpl. by rewrite comprehension_rendered.
Qed.

Lemma get_chat_history_renders_witness :
  fst (get_chat_history Sample.service Scenario.history_request
         (Sample.world_of Scenario.store_bot_only))
  = Ok (jsonify (JHistory [ {| sender := "user"; text := "hi" |};
                            {| sender := "bot"; text := "are you there?" |} ]) 200).
Proof.
  apply (get_chat_history_renders Sample.service Scenario.history_request "bob"
           (Sample.world_of Scenario.store_bot_only)
           (Sample.day_doc "2024-05-02" Scenario.chats_bot_only) Scenario.chats_bot_only).
  - vm_compute. reflexivity.
  - discriminate.
  - vm_compute. reflexivity.
  - vm_compute. reflexivity.
  - constructor; [left; vm_compute; reflexivity|].
    constructor; [right; eexists; vm_compute; reflexivity|].
    constructor.
Defined.

(** X11.  A stored entry that has neither a non-empty user message nor a
    bot message makes the whole history request of that day end with
    KeyError: no item of the day is returned. *)
Theorem entry_without_messages_breaks_history (E : env) (req : request) (uid : string)
    (w : world) (d : document) (pre post : list entry) (chat : entry) :
  verify_token E req = Some uid → uid ≠ "" →
  db w !! doc_ref uid "chat_history" (target_date E req w) = Some d →
  d !! "chats" = Some (FArr (pre ++ chat :: post)) →
  Forall renderable pre →
  truthy (chat !! "user_message") = false → chat !! "bot_message" = None →
  fst (get_chat_history E req w) = Raise (KeyError "bot_message").
Proof.
  intros Hv Hne Hd Hc Hpre Hu Hb.
  destruct (get_chat_history_reads E req uid w Hv Hne) as [-> _].
  rewrite Hd. simpl. rewrite Hc. simpl. by rewrite comprehension_missing_bot.
Qed.

Lemma entry_without_messages_breaks_history_witness :
  fst (get_chat_history Sample.service Scenario.history_request
         (Sample.world_of Scenario.store_blank))
  = Raise (KeyError "bot_message").
Proof.
  apply (entry_without_messages_breaks_history Sample.service Scenario.history_request "bob"
           (Sample.world_of Scenario.store_blank)
           (Sample.day_doc "2024-05-02" Scenario.chats_blank)
           [ turn_entry "s1" "hi" "hello" "2024-05-02T09:00:00+05:30" ] []
           {[ "session_id" := "s1" ]}).
  - vm_compute. reflexivity.
  - discriminate.
  - vm_compute. reflexivity.
  - vm_compute. reflexivity.
  - constructor; [left; vm_compute; reflexivity|]. constructor.
  - vm_compute. reflexivity.
  - vm_compute. reflexivity.
Defined.

(** ** Stores that only the handlers wrote *)











(** ** The chat handler from the request to the store *)

(** [chat] on an authenticated request with a message, in terms of the
    store it received: the two appends, the assembly at the third clock
    reading and the completion call. *)
Lemma chat_symbolic (E : env) (req : request) (uid msg : string) (w : world) :
  verify_token E req = Some uid → uid ≠ "" →
  json req !! "message" = Some msg → msg ≠ "" →
  ∃ r' : nat,
    (r' = draws w ∨ r' = S (draws w))
    ∧ let sid := resolve_session_id E req w in
      let s1 := set_merge (doc_ref uid "user_sessions" (ymd (clock E (ticks w))))
                  (ymd (clock E (ticks w))) "user_messages"
                  [user_entry sid msg (isoformat (clock E (S (ticks w))))] (db w) in
      let w3 := {| db := s1; ticks := 3 + ticks w; draws := r' |} in
      chat E req w
      = match fst (get_session_history E uid sid (tick (tick w))) with
        | Raise e => (Raise e, w3)
        | Ok conversation =>
            match ChatCompletion_create E (conversation ++ [user_message_of msg]) with
            | Raise e => (Raise e, w3)
            | Ok bot =>
                (Ok (jsonify (JChat bot sid) 200),
                 {| db := set_merge (doc_ref uid "chat_history" (ymd (clock E (3 + ticks w))))
                            (ymd (clock E (3 + ticks w))) "chats"
                            [turn_entry sid msg bot (isoformat (clock E (4 + ticks w)))] s1;
                    ticks := 5 + ticks w;
                    draws := r' |})
            end
        end.
Proof.
  intros Hv Hne Hm Hmne.
  destruct (chat_run E req uid msg w Hv Hne Hm Hmne) as (w0 & Hdb & Ht & Hdr & _ & ->).
  exists (draws w0). split; [done|]. cbv zeta.
  pose proof (history_after_user_append E uid (resolve_session_id E req w) msg w w0 Hdb Ht)
    as Hh.
  set (w1 := snd (run_op E (appendUserMessage uid (resolve_session_id E req w) msg) w0)) in *.
  assert (w1 = {| db := set_merge (doc_ref uid "user_sessions" (ymd (clock E (ticks w))))
                          (ymd (clock E (ticks w))) "user_messages"
                          [user_entry (resolve_session_id E req w) msg
                             (isoformat (clock E (S (ticks w))))] (db w);
                  ticks := S (S (ticks w)); draws := draws w0 |}) as Hw1.
  { subst w1. rewrite run_op_run. unfold today. simpl. by rewrite Ht, Hdb. }
  clearbody w1.
  pose proof (get_session_history_world E uid (resolve_session_id E req w) w1) as Hw2.
  rewrite <- Hh.
  destruct (get_session_history E uid (resolve_session_id E req w) w1) as [[conv|e] w2];
    simpl in Hw2; subst w2 w1; cbn [fst]; [|done].
  unfold user_message_of.
  destruct (ChatCompletion_create E _) as [bot|e]; [|done].
  rewrite run_op_run. by unfold today.
Qed.



(** X15.  A successful chat request takes five clock readings and files
    its two entries by different ones: the user message goes to the
    message log of the day of the first reading, stamped with the second;
    the turn goes to the chat history of the day of the fourth reading,
    stamped with the fifth.  Around midnight the two land on different
    days. *)
Theorem chat_files_by_clock_readings (E : env) (req : request) (uid msg : string)
    (w : world) (resp : http_response) :
  verify_token E req = Some uid → uid ≠ "" →
  json req !! "message" = Some msg → msg ≠ "" →
  fst (chat E req w) = Ok resp →
  let w' := snd (chat E req w) in
  let sid := resolve_session_id E req w in
  let day1 := ymd (clock E (ticks w)) in
  let day4 := ymd (clock E (3 + ticks w)) in
  let sent := user_entry sid msg (isoformat (clock E (1 + ticks w))) in
  let old_sent := log_of (db w) DailyUserMessageLog uid day1 in
  let old_turns := log_of (db w) DailyChatHistory uid day4 in
  ∃ reply,
    resp = jsonify (JChat reply sid) 200
    ∧ ticks w' = 5 + ticks w
    ∧ log_of (db w') DailyUserMessageLog uid day1
      = (if decide (sent ∈ old_sent) then old_sent else old_sent ++ [sent])
    ∧ let turn := turn_entry sid msg reply (isoformat (clock E (4 + ticks w))) in
      log_of (db w') DailyChatHistory uid day4
      = (if decide (turn ∈ old_turns) then old_turns else old_turns ++ [turn]).
Proof.
  intros Hv Hne Hm Hmne Hok w' sid day1 day4 sent old_sent old_turns. subst w'.
  destruct (chat_symbolic E req uid msg w Hv Hne Hm Hmne) as (r' & _ & Hrun).
  cbv zeta in Hrun. rewrite Hrun in Hok |- *. clear Hrun.
  destruct (fst (get_session_history E uid _ _)) as [conv|e]; [|done].
  destruct (ChatCompletion_create E _) as [reply|e]; [|done].
  injection Hok as <-. exists reply. cbn [fst snd db ticks].
  split; [done|]. split; [done|]. unfold log_of. cbn [collection_of array_of]. split.
  - rewrite stored_array_set_merge_other by done.
    by rewrite stored_array_set_merge.
  - cbv zeta. rewrite stored_array_set_merge by done.
    by rewrite stored_array_set_merge_other.
Qed.

Lemma chat_files_by_clock_readings_witness :
  let w' := snd (chat Scenario.midnight_service (Scenario.chat_request "s1" "late")
                   Sample.empty_world) in
  ∃ reply,
    jsonify (JChat "re: late" "s1") 200 = jsonify (JChat reply "s1") 200
    ∧ ticks w' = 5
    ∧ log_of (db w') DailyUserMessageLog "bob" "2024-05-02"
      = [ user_entry "s1" "late" "2024-05-02T23:59:59+05:30" ]
    ∧ log_of (db w') DailyChatHistory "bob" "2024-05-03"
      = [ turn_entry "s1" "late" reply "2024-05-03T00:00:01+05:30" ].
Proof.
  apply (chat_files_by_clock_readings Scenario.midnight_service
           (Scenario.chat_request "s1" "late") "bob" "late" Sample.empty_world
           (jsonify (JChat "re: late" "s1") 200)).
  - vm_compute. reflexivity.
  - discriminate.
  - vm_compute. reflexivity.
  - discriminate.
  - vm_compute. reflexivity.
Defined.

(** X16.  When history assembly raises, the chat request ends with that
    exception after the user message has been stored: the message is in
    the daily log, no other document has changed, and no turn is
    written. *)
Theorem chat_fails_after_storing_when_assembly_raises (E : env) (req : request)
    (uid msg : string) (e : exn) (w : world) :
  verify_token E req = Some uid → uid ≠ "" →
  json req !! "message" = Some msg → msg ≠ "" →
  fst (get_session_history E uid (resolve_session_id E req w) (tick (tick w))) = Raise e →
  let w' := snd (chat E req w) in
  let sent := user_entry (resolve_session_id E req w) msg
                (isoformat (clock E (1 + ticks w))) in
  fst (chat E req w) = Raise e
  ∧ sent ∈ log_of (db w') DailyUserMessageLog uid (ymd (clock E (ticks w)))
  ∧ (∀ ref, ref ≠ doc_ref uid "user_sessions" (ymd (clock E (ticks w))) →
            db w' !! ref = db w !! ref).
Proof.
  intros Hv Hne Hm Hmne Hraise w' sent. subst w'.
  destruct (chat_symbolic E req uid msg w Hv Hne Hm Hmne) as (r' & _ & ->).
  rewrite Hraise. cbn [fst snd db]. split; [done|]. split.
  - unfold log_of. cbn [collection_of array_of].
    rewrite stored_array_set_merge by done. unfold union_one.
    destruct (decide _) as [Hin|Hnin]; [exact Hin|].
    apply elem_of_app. right. by apply list_elem_of_singleton.
  - intros ref Href. by rewrite set_merge_other.
Qed.

Lemma chat_fails_after_storing_when_assembly_raises_witness :
  let w := Sample.world_of Scenario.store_broken in
  let w' := snd (chat Sample.service (Scenario.chat_request "s2" "hello?") w) in
  fst (chat Sample.service (Scenario.chat_request "s2" "hello?") w)
  = Raise (KeyError "session_id")
  ∧ user_entry "s2" "hello?" "2024-05-02T10:15:01+05:30"
    ∈ log_of (db w') DailyUserMessageLog "bob" "2024-05-02"
  ∧ (∀ ref, ref ≠ doc_ref "bob" "user_sessions" "2024-05-02" →
            db w' !! ref = db w !! ref).
Proof.
  apply (chat_fails_after_storing_when_assembly_raises Sample.service
           (Scenario.chat_request "s2" "hello?") "bob" "hello?" (KeyError "session_id")
           (Sample.world_of Scenario.store_broken)).
  - vm_compute. reflexivity.
  - discriminate.
  - vm_compute. reflexivity.
  - discriminate.
  - vm_compute. reflexivity.
Defined.

(** ** Retries, target dates and status codes *)

Lemma union_one_twice (arr : list entry) (e : entry) :
  union_one (union_one arr e) e = union_one arr e.
Proof.
  unfold union_one at 2 3. destruct (decide (e ∈ arr)) as [Hin|Hnin].
  - unfold union_one. by destruct (decide (e ∈ arr)).
  - unfold union_one. destruct (decide (e ∈ arr ++ [e])) as [|Hn]; [done|].
    destruct Hn. apply elem_of_app. right. by apply list_elem_of_singleton.
Qed.

Lemma set_merge_twice (ref : path) (d f : string) (e : entry) (s : store) :
  f ≠ "date" →
  set_merge ref d f [e] (set_merge ref d f [e] s) = set_merge ref d f [e] s.
Proof.
  intros Hf. unfold set_merge. cbv zeta.
  set (old := default ∅ (s !! ref)).
  set (d1 := <[f := ArrayUnion [e] (old !! f)]> (<["date" := FStr d]> old)).
  rewrite lookup_insert_eq. cbn [from_option id]. rewrite insert_insert_eq. f_equal.
  apply map_eq. intros k. subst d1.
  destruct (decide (k = f)) as [->|Hk].
  - rewrite !lookup_insert_eq. apply (f_equal Some).
    unfold ArrayUnion. cbn [fold_left]. by rewrite union_one_twice.
  - rewrite lookup_insert_ne by done.
    destruct (decide (k = "date")) as [->|Hkd].
    + rewrite lookup_insert_eq. rewrite lookup_insert_ne by done.
      by rewrite lookup_insert_eq.
    + by rewrite !lookup_insert_ne by done.
Qed.

(** X17.  A write that is repeated while the clock shows the same date
    and the same timestamp changes nothing: the store after the two
    writes is the store after the first. *)
Theorem repeated_write_is_absorbed (E : env) (op : write_op) (w : world) :
  ymd (clock E (2 + ticks w)) = ymd (clock E (ticks w)) →
  isoformat (clock E (3 + ticks w)) = isoformat (clock E (1 + ticks w)) →
  db (snd (run_ops E [op; op] w)) = db (snd (run_op E op w)).
Proof.
  intros Hday Hts. cbn [run_ops]. unfold bind at 1.
  rewrite (run_op_run E op w). unfold bind. rewrite run_op_run. unfold ret. cbn [snd db].
  unfold today. cbn [ticks]. 
  assert (new_entry E op
            {| db := set_merge (doc_ref (uid_of op) (collection_of (kind_of op))
                                  (ymd (clock E (ticks w))))
                       (ymd (clock E (ticks w))) (array_of (kind_of op))
                       [new_entry E op w] (db w);
               ticks := S (S (ticks w)); draws := draws w |}
          = new_entry E op w) as ->.
  { unfold new_entry. cbn [ticks]. change (S (S (S (ticks w)))) with (3 + ticks w).
    by rewrite Hts. }
  change (S (S (ticks w))) with (2 + ticks w). rewrite Hday.
  apply set_merge_twice, array_of_not_date.
Qed.

Lemma repeated_write_is_absorbed_witness :
  db (snd (run_ops Sample.coarse_service
             [ appendChatTurn "bob" "s1" "hi" "hello"; appendChatTurn "bob" "s1" "hi" "hello" ]
             Sample.empty_world))
  = db (snd (run_op Sample.coarse_service (appendChatTurn "bob" "s1" "hi" "hello")
               Sample.empty_world)).
Proof.
  apply (repeated_write_is_absorbed Sample.coarse_service
           (appendChatTurn "bob" "s1" "hi" "hello") Sample.empty_world).
  - reflexivity.
  - reflexivity.
Defined.

(** X18.  The history request reads one document only, the chat history
    of its target date: two stores that agree on that document are
    answered alike under the same clock, whatever else they hold. *)
Theorem get_chat_history_reads_target_only (E : env) (req : request) (uid : string)
    (w w' : world) :
  verify_token E req = Some uid → uid ≠ "" →
  ticks w' = ticks w →
  db w' !! doc_ref uid "chat_history" (target_date E req w)
  = db w !! doc_ref uid "chat_history" (target_date E req w) →
  fst (get_chat_history E req w') = fst (get_chat_history E req w).
Proof.
  intros Hv Hne Ht Hd.
  destruct (get_chat_history_reads E req uid w Hv Hne) as [-> _].
  destruct (get_chat_history_reads E req uid w' Hv Hne) as [-> _].
  assert (target_date E req w' = target_date E req w) as ->
    by (unfold target_date, today; by rewrite Ht).
  by rewrite Hd.
Qed.

Lemma get_chat_history_reads_target_only_witness :
  fst (get_chat_history Sample.service
         (Sample.mk_request [("X-UID", "bob")] [] [("date", "2024-05-02")])
         (Sample.world_of Sample.store_two_days))
  = fst (get_chat_history Sample.service
           (Sample.mk_request [("X-UID", "bob")] [] [("date", "2024-05-02")])
           (Sample.world_of Sample.store_today)).
Proof.
  apply (get_chat_history_reads_target_only Sample.service
           (Sample.mk_request [("X-UID", "bob")] [] [("date", "2024-05-02")]) "bob"
           (Sample.world_of Sample.store_today) (Sample.world_of Sample.store_two_days)).
  - vm_compute. reflexivity.
  - discriminate.
  - reflexivity.
  - vm_compute. reflexivity.
Defined.

(** X19.  The status of an answered chat request names its cause: 401
    exactly when no non-empty uid was resolved, 400 exactly when a uid was
    resolved and the message is absent or empty, and 200 otherwise; no
    other status is produced. *)
Theorem chat_status_names_the_cause (E : env) (req : request) (w : world)
    (resp : http_response) :
  fst (chat E req w) = Ok resp →
  (status resp = 401 ∧ truthy (verify_token E req) = false)
  ∨ (status resp = 400 ∧ truthy (verify_token E req) = true
     ∧ truthy (json req !! "message") = false)
  ∨ (status resp = 200 ∧ truthy (verify_token E req) = true
     ∧ truthy (json req !! "message") = true).
Proof.
  intros Hok.
  destruct (verify_token E req) as [uid|] eqn:Hv.
  2:{ rewrite chat_unauthorized in Hok by auto. injection Hok as <-. by left. }
  destruct (decide (uid = "")) as [->|Hne].
  { rewrite chat_unauthorized in Hok by auto. injection Hok as <-. by left. }
  assert (truthy (Some uid) = true) as Htu by (by destruct uid).
  right.
  destruct (json req !! "message") as [msg|] eqn:Hm.
  2:{ left. revert Hok. unfold chat. rewrite Hv, Hm. destruct uid as [|a uid]; [done|].
      unfold bind. rewrite py_or_session_id. unfold ret. intros [= <-]. done. }
  destruct (decide (msg = "")) as [->|Hmne].
  { left. revert Hok. unfold chat. rewrite Hv, Hm. destruct uid as [|a uid]; [done|].
    unfold bind. rewrite py_or_session_id. unfold ret. intros [= <-]. done. }
  right.
  destruct (chat_symbolic E req uid msg w Hv Hne Hm Hmne) as (r' & _ & Hrun).
  cbv zeta in Hrun. rewrite Hrun in Hok.
  destruct (fst (get_session_history E uid _ _)) as [conv|e]; [|done].
  destruct (ChatCompletion_create E _) as [reply|e]; [|done].
  injection Hok as <-. split; [done|]. split; [done|]. by destruct msg.
Qed.

Lemma chat_status_names_the_cause_witness :
  (status (jsonify (JError "Message is required") 400) = 401
   ∧ truthy (verify_token Sample.service
               (Sample.mk_request [("Authorization", "Bearer tok-alice")] [] [])) = false)
  ∨ (status (jsonify (JError "Message is required") 400) = 400
     ∧ truthy (verify_token Sample.service
                 (Sample.mk_request [("Authorization", "Bearer tok-alice")] [] [])) = true
     ∧ truthy (json (Sample.mk_request [("Authorization", "Bearer tok-alice")] [] [])
               !! "message") = false)
  ∨ (status (jsonify (JError "Message is required") 400) = 200
     ∧ truthy (verify_token Sample.service
                 (Sample.mk_request [("Authorization", "Bearer tok-alice")] [] [])) = true
     ∧ truthy (json (Sample.mk_request [("Authorization", "Bearer tok-alice")] [] [])
               !! "message") = true).
Proof.
  apply (chat_status_names_the_cause Sample.service
           (Sample.mk_request [("Authorization", "Bearer tok-alice")] [] [])
           Sample.empty_world (jsonify (JError "Message is required") 400)).
  vm_compute. reflexivity.
Defined.
